(** * dnstest: the bounded-concurrency DNS query engine of [dnstest.py]

    A shallow embedding of [query_domain] and [run_test] and the
    properties of the benchmark run that the specification states.

    Conventions of the embedding.
    - A Python [float] holding a duration is a rational number ([Q]): every
      float is one, and [statistics] itself computes with exact fractions.
      The rounding of the individual float operations and of the [:.2f]
      formatting is not modelled; a printed number is the exact value.
    - [time.perf_counter()] is an input: every reading is given by the
      environment.
    - A raised Python exception is a value of [error] in the left summand
      of [py].
    - The event loop of asyncio is a labelled transition system whose
      labels are the choices of the scheduler and of the network. *)

From Stdlib Require Import List String Ascii Arith Lia Bool.
From Stdlib Require Import QArith Qreals Reals Lra.
From Stdlib Require Import Permutation Sorted.
From stdpp Require Import base list.
Import ListNotations.

Local Open Scope nat_scope.
Local Open Scope string_scope.
Local Open Scope list_scope.

(** ** Configuration (lines 26-29) *)

Definition QUERY_TYPE : string := "A".
Definition TIMEOUT : Q := 2.
Definition CONCURRENT_REQUESTS : nat := 50.

(** ** Exceptions of the resolver

    [query_domain] has four [except] clauses, tried in order.  What it needs
    of an exception class is the first clause the class is caught by and
    the class's [__name__]; what it never reads is the message. *)

Inductive except_clause : Type :=
| CatchNXDOMAIN      (* except dns.resolver.NXDOMAIN *)
| CatchNoAnswer      (* except dns.resolver.NoAnswer *)
| CatchTimeout       (* except dns.resolver.Timeout *)
| CatchException.    (* except Exception as e *)

Record exc_type : Type := ExcType
  { type_name : string;            (* type(e).__name__ *)
    caught_by : except_clause }.   (* first clause matching isinstance *)

Record exception : Type := Exc
  { exc_class : exc_type;
    exc_message : string }.        (* str(e) *)

(** What [await resolver.resolve(domain, QUERY_TYPE)] does: it returns an
    answer, or it raises. *)
Inductive resolution : Type :=
| Answer
| Raises (e : exception).

(** The triple [(domain, time_taken, error_key)] that [query_domain]
    returns; [error_key] is [None] on success. *)
Record result : Type := Result
  { r_domain : string;
    r_time : Q;
    r_error : option string }.

(** ** [query_domain] (lines 151-172)

    [start_time] and [end_time] are the two readings of the clock. *)
Definition query_domain (outcome : resolution) (domain : string)
    (start_time end_time : Q) : result :=
  match outcome with
  | Answer => Result domain (end_time - start_time) None
  | Raises e =>
      match caught_by (exc_class e) with
      | CatchNXDOMAIN => Result domain (end_time - start_time) (Some "NXDOMAIN")
      | CatchNoAnswer => Result domain (end_time - start_time) (Some "NoAnswer")
      | CatchTimeout => Result domain TIMEOUT (Some "Timeout")
      | CatchException =>
          let error_name := type_name (exc_class e) in
          Result domain (end_time - start_time) (Some error_name)
      end
  end.

(** ** Python errors and partial operations *)

Inductive error : Type :=
| ZeroDivisionError
| StatisticsError
| ValueError.

Definition py (A : Type) : Type := (error + A)%type.

Definition ret {A : Type} (a : A) : py A := inr a.
Definition raise {A : Type} (e : error) : py A := inl e.
Definition bind {A B : Type} (m : py A) (k : A -> py B) : py B :=
  match m with
  | inl e => inl e
  | inr a => k a
  end.

Notation "'try' x <- m ; k" := (bind m (fun x => k))
  (at level 10, x name, m at level 100, k at level 200,
   format "'[v' 'try'  x  <-  m ; '/' k ']'").

Definition Qnat (n : nat) : Q := inject_Z (Z.of_nat n).

Definition Qlt_bool (a b : Q) : bool := negb (Qle_bool b a).

(** [a / b] on floats. *)
Definition pydiv (a b : Q) : py Q :=
  if Qeq_bool b 0 then raise ZeroDivisionError else ret (a / b)%Q.

(** [if error_key:] -- [None] and the empty string are false. *)
Definition truthy (error_key : option string) : bool :=
  match error_key with
  | None => false
  | Some s => negb (s =? "")
  end.

(** ** [sorted]: the stable sort of Python

    [before y x] says that [y] has to come strictly before [x].  An element
    is put in front of the first one that does not have to precede it, so
    elements that compare equal keep the order of the input: this is the
    stability that Python documents for [sorted], also under
    [reverse=True]. *)
Section Sorted.
Context {A : Type} (before : A -> A -> bool).

Fixpoint insert_sorted (x : A) (l : list A) : list A :=
  match l with
  | [] => [x]
  | y :: ys => if before y x then y :: insert_sorted x ys else x :: l
  end.

Fixpoint sorted (l : list A) : list A :=
  match l with
  | [] => []
  | x :: xs => insert_sorted x (sorted xs)
  end.
End Sorted.

(** ** The [statistics] module, [min] and [max]

    The functions of Python's standard library that the report calls; they
    are not code of the repository and are written here after the library:
    [mean] is the sum over the count, [median] the middle of the sorted data,
    [stdev] the square root of the sample variance, which CPython obtains
    from the exact sums of the data and of their squares.  Each raises on
    the inputs on which Python raises: [mean], [median], [min] and [max] on
    an empty sequence, [variance] and [stdev] on fewer than two values. *)
Module statistics.

Definition Qsum (data : list Q) : Q := fold_right Qplus 0%Q data.

Definition mean (data : list Q) : py Q :=
  match data with
  | [] => raise StatisticsError
  | _ => ret (Qsum data / Qnat (length data))%Q
  end.

Definition median (data : list Q) : py Q :=
  let data := sorted Qlt_bool data in
  let n := length data in
  if (n =? 0)%nat then raise StatisticsError
  else if (n mod 2 =? 1)%nat then ret (nth (n / 2) data 0%Q)
  else
    let i := n / 2 in
    ret ((nth (i - 1) data 0 + nth i data 0) / 2)%Q.

(** [_ss]: the sum of the squared deviations from the mean, computed
    exactly from the sum and the sum of the squares. *)
Definition _ss (data : list Q) : Q :=
  let count := Qnat (length data) in
  let sx := Qsum data in
  let sxx := Qsum (map (fun x => x * x)%Q data) in
  ((count * sxx - sx * sx) / count)%Q.

Definition variance (data : list Q) : py Q :=
  let n := length data in
  if (n <? 2)%nat then raise StatisticsError
  else ret (_ss data / Qnat (n - 1))%Q.

Definition stdev (data : list Q) : py R :=
  try mss <- variance data;
  ret (sqrt (Q2R mss)).

End statistics.

Definition min (data : list Q) : py Q :=
  match data with
  | [] => raise ValueError
  | x :: xs => ret (fold_left (fun m y => if Qlt_bool y m then y else m) xs x)
  end.

Definition max (data : list Q) : py Q :=
  match data with
  | [] => raise ValueError
  | x :: xs => ret (fold_left (fun m y => if Qlt_bool m y then y else m) xs x)
  end.

(** ** [error_counts]: a [dict] from error key to count

    A Python [dict] keeps its keys in the order of their first insertion,
    and [items()] lists them in that order. *)
Definition dict : Type := list (string * nat).

Fixpoint dict_get (d : dict) (key : string) (default : nat) : nat :=
  match d with
  | [] => default
  | (k, v) :: d' => if k =? key then v else dict_get d' key default
  end.

Fixpoint dict_set (d : dict) (key : string) (value : nat) : dict :=
  match d with
  | [] => [(key, value)]
  | (k, v) :: d' =>
      if k =? key then (k, value) :: d' else (k, v) :: dict_set d' key value
  end.

(** ** What [run_test] prints

    One constructor for each [print] of [run_test], carrying the values
    that the f-string formats. *)
Inductive line : Type :=
| TestingServers (dns_servers : list string)                  (* line 187 *)
| QueryingDomains (count : nat) (query_type : string)         (* line 188 *)
| ConcurrentRequests (limit : nat)                            (* line 189 *)
| Progress (percent : Q) (processed total : nat) (qps : Q)
           (successes errors : nat)                           (* line 233 *)
| SummaryHeader                                               (* line 240 *)
| ServersTested (dns_servers : list string)                   (* line 241 *)
| TotalDomainsTested (count : nat)                            (* line 242 *)
| TotalProcessingTime (seconds : Q)                           (* line 243 *)
| SuccessfulLookups (count : nat)                             (* line 244 *)
| FailedLookups (count : nat)                                 (* line 245 *)
| ErrorBreakdownHeader                                        (* line 249 *)
| ErrorEntry (err_type : string) (count : nat)                (* line 253 *)
| PerformanceMetricsHeader                                    (* line 257 *)
| AverageQueryTime (ms : Q)                                   (* line 258 *)
| MedianQueryTime (ms : Q)                                    (* line 259 *)
| MinQueryTime (ms : Q)                                       (* line 260 *)
| MaxQueryTime (ms : Q)                                       (* line 261 *)
| StandardDeviation (ms : R)                                  (* line 264 *)
| OverallAverageQPS (qps : Q)                                 (* line 268 *)
| NoSuccessfulLookups.                                        (* line 270 *)

Definition is_qps_line (l : line) : bool :=
  match l with OverallAverageQPS _ => true | _ => false end.

Definition is_stdev_line (l : line) : bool :=
  match l with StandardDeviation _ => true | _ => false end.

(** The lines of the section "Performance Metrics". *)
Definition is_metric_line (l : line) : bool :=
  match l with
  | PerformanceMetricsHeader | AverageQueryTime _ | MedianQueryTime _
  | MinQueryTime _ | MaxQueryTime _ | StandardDeviation _
  | OverallAverageQPS _ => true
  | _ => false
  end.

(** ** The local variables of [run_test] (lines 191-195, 211) *)
Record run_state : Type := RunState
  { successful_lookups : nat;
    failed_lookups : nat;
    error_counts : dict;
    timings : list Q;
    total_processed : nat;
    stdout : list line }.

(** ** The coordinator of [run_test] *)
Section Coordinator.
Variable dns_servers : list string.
Variable domains_to_test : list string.
Variable start_processing_time : Q.

(** Lines 187-195 and 211: the banner and the initial values. *)
Definition run_test_begin : run_state :=
  {| successful_lookups := 0;
     failed_lookups := 0;
     error_counts := [];
     timings := [];
     total_processed := 0;
     stdout := [ TestingServers dns_servers;
                 QueryingDomains (length domains_to_test) QUERY_TYPE;
                 ConcurrentRequests CONCURRENT_REQUESTS ] |}.

(** Lines 215-233: the body of the loop over [as_completed], for the
    [i]-th future, whose result is [res]; [current_time] is the reading of
    line 227. *)
Definition loop_body (st : run_state) (i : nat) (res : result)
    (current_time : Q) : py run_state :=
  let time_taken := r_time res in
  let error_key := r_error res in
  let total_processed := i + 1 in
  let '(successful_lookups, failed_lookups, error_counts, timings) :=
    if truthy error_key then
      let key := match error_key with Some k => k | None => "" end in
      (successful_lookups st,
       failed_lookups st + 1,
       dict_set (error_counts st) key (dict_get (error_counts st) key 0 + 1),
       timings st)
    else
      (successful_lookups st + 1,
       failed_lookups st,
       error_counts st,
       timings st ++ [time_taken]) in
  let elapsed_time := (current_time - start_processing_time)%Q in
  try current_qps <-
    (if Qlt_bool 0 elapsed_time
     then pydiv (Qnat total_processed) elapsed_time
     else ret 0%Q);
  try ratio <- pydiv (Qnat total_processed) (Qnat (length domains_to_test));
  let progress_percent := (ratio * 100)%Q in
  ret {| successful_lookups := successful_lookups;
         failed_lookups := failed_lookups;
         error_counts := error_counts;
         timings := timings;
         total_processed := total_processed;
         stdout := stdout st ++
           [ Progress progress_percent total_processed
               (length domains_to_test) current_qps
               successful_lookups failed_lookups ] |}.

(** Line 251: [sorted(error_counts.items(), key=lambda item: item[1],
    reverse=True)].  With [reverse=True] an item has to precede those of
    a smaller count. *)
Definition sorted_errors (error_counts : dict) : list (string * nat) :=
  sorted (fun y x => (snd x <? snd y)%nat) error_counts.

(** Lines 240-270: the summary. *)
Definition print_summary (st : run_state) (total_duration : Q)
    : py (list line) :=
  let out :=
    [ SummaryHeader;
      ServersTested dns_servers;
      TotalDomainsTested (length domains_to_test);
      TotalProcessingTime total_duration;
      SuccessfulLookups (successful_lookups st);
      FailedLookups (failed_lookups st) ] in
  let out :=
    if (0 <? failed_lookups st)%nat then
      out ++ ErrorBreakdownHeader
          :: map (fun '(err_type, count) => ErrorEntry err_type count)
                 (sorted_errors (error_counts st))
    else out in
  match timings st with
  | _ :: _ =>
      try average <- statistics.mean (timings st);
      try middle <- statistics.median (timings st);
      try least <- min (timings st);
      try greatest <- max (timings st);
      let out :=
        out ++ [ PerformanceMetricsHeader;
                 AverageQueryTime (average * 1000);
                 MedianQueryTime (middle * 1000);
                 MinQueryTime (least * 1000);
                 MaxQueryTime (greatest * 1000) ] in
      try out <-
        (if (1 <? length (timings st))%nat then
           try deviation <- statistics.stdev (timings st);
           ret (out ++ [StandardDeviation (deviation * 1000)])
         else ret out);
      if Qlt_bool 0 total_duration then
        try final_qps <- pydiv (Qnat (length domains_to_test)) total_duration;
        ret (out ++ [OverallAverageQPS final_qps])
      else ret out
  | [] => ret (out ++ [NoSuccessfulLookups])
  end.

End Coordinator.

(** ** The tasks and the event loop (lines 198-215)

    [limited_query(domain)] is a coroutine that acquires [sem], awaits
    [query_domain] and releases [sem].  Its only suspension points are the
    [acquire] of a locked semaphore and the [resolve] of the resolver. *)
Inductive task_state : Type :=
| Created                    (* coroutine object made, not yet run *)
| Waiting                    (* suspended in [sem.acquire()] *)
| InFlight (start_time : Q)  (* past the acquire, awaiting [resolve] *)
| Finished.                  (* returned; the semaphore is released *)

Record task : Type := Task
  { task_domain : string;
    task_status : task_state }.

(** The state of a run: the semaphore, the tasks, the queue in which
    [as_completed] hands over finished tasks, the counter of [enumerate], the
    variables of the coordinator and the exception that ended the run, if
    any.  [queried] and [records] are history variables of the model: the
    domains passed to [resolver.resolve] so far, and the triples unpacked at
    line 215 so far. *)
Record system : Type := System
  { sem_value : nat;
    tasks : list task;
    completed : list result;
    next_index : nat;
    vars : run_state;
    raised : option error;
    queried : list string;
    records : list result }.

(** The choices of the scheduler and of the environment. *)
Inductive event : Type :=
| Start (i : nat) (now : Q)
    (* task [i] runs for the first time and reaches [async with sem] *)
| Wake (i : nat) (now : Q)
    (* the waiting task [i] is given a free slot *)
| Settle (i : nat) (outcome : resolution) (now : Q)
    (* the query of task [i] settles: [query_domain] returns, the slot is
       released, the task is done *)
| Consume (now : Q).
    (* the loop of line 214 receives the next finished task *)

Definition is_in_flight (t : task) : bool :=
  match task_status t with InFlight _ => true | _ => false end.

Definition is_finished (t : task) : bool :=
  match task_status t with Finished => true | _ => false end.

Definition is_started (t : task) : bool :=
  is_in_flight t || is_finished t.

(** The number of queries in flight. *)
Definition in_flight (s : system) : nat :=
  length (List.filter is_in_flight (tasks s)).

Section Engine.
Variable limit : nat.      (* the value given to [asyncio.Semaphore] *)
Variable dns_servers : list string.
Variable domains_to_test : list string.
Variable start_processing_time : Q.

(** Lines 198-211: the semaphore, one task per domain, the variables. *)
Definition initial : system :=
  {| sem_value := limit;
     tasks := map (fun domain => Task domain Created) domains_to_test;
     completed := [];
     next_index := 0;
     vars := run_test_begin dns_servers domains_to_test;
     raised := None;
     queried := [];
     records := [] |}.

(** Task [i] passes [sem.acquire()] at time [now] and calls
    [query_domain], which reads the clock and awaits [resolve]. *)
Definition acquire (s : system) (i : nat) (domain : string) (now : Q)
    : system :=
  {| sem_value := sem_value s - 1;
     tasks := <[i := Task domain (InFlight now)]> (tasks s);
     completed := completed s;
     next_index := next_index s;
     vars := vars s;
     raised := raised s;
     queried := queried s ++ [domain];
     records := records s |}.

Definition suspend (s : system) (i : nat) (domain : string) : system :=
  {| sem_value := sem_value s;
     tasks := <[i := Task domain Waiting]> (tasks s);
     completed := completed s;
     next_index := next_index s;
     vars := vars s;
     raised := raised s;
     queried := queried s;
     records := records s |}.

Definition settle (s : system) (i : nat) (domain : string) (res : result)
    : system :=
  {| sem_value := sem_value s + 1;
     tasks := <[i := Task domain Finished]> (tasks s);
     completed := completed s ++ [res];
     next_index := next_index s;
     vars := vars s;
     raised := raised s;
     queried := queried s;
     records := records s |}.

Definition consume (s : system) (res : result) (rest : list result)
    (now : Q) : system :=
  match loop_body domains_to_test start_processing_time
          (vars s) (next_index s) res now with
  | inr st =>
      {| sem_value := sem_value s;
         tasks := tasks s;
         completed := rest;
         next_index := next_index s + 1;
         vars := st;
         raised := None;
         queried := queried s;
         records := records s ++ [res] |}
  | inl e =>
      {| sem_value := sem_value s;
         tasks := tasks s;
         completed := rest;
         next_index := next_index s;
         vars := vars s;
         raised := Some e;
         queried := queried s;
         records := records s ++ [res] |}
  end.

(** One step of the event loop; [None] when the event cannot happen in
    the state.  Nothing happens after an exception has left [run_test]. *)
Definition step (s : system) (ev : event) : option system :=
  match raised s with
  | Some _ => None
  | None =>
      match ev with
      | Start i now =>
          match tasks s !! i with
          | Some (Task domain Created) =>
              if (0 <? sem_value s)%nat
              then Some (acquire s i domain now)
              else Some (suspend s i domain)
          | _ => None
          end
      | Wake i now =>
          match tasks s !! i with
          | Some (Task domain Waiting) =>
              if (0 <? sem_value s)%nat
              then Some (acquire s i domain now)
              else None
          | _ => None
          end
      | Settle i outcome now =>
          match tasks s !! i with
          | Some (Task domain (InFlight start_time)) =>
              Some (settle s i domain
                      (query_domain outcome domain start_time now))
          | _ => None
          end
      | Consume now =>
          match completed s with
          | res :: rest => Some (consume s res rest now)
          | [] => None
          end
      end
  end.

Fixpoint run (s : system) (events : list event) : option system :=
  match events with
  | [] => Some s
  | ev :: events' =>
      match step s ev with
      | Some s' => run s' events'
      | None => None
      end
  end.

(** The loop of line 214 ends when [as_completed] has yielded one future
    for each task. *)
Definition loop_finished (s : system) : bool :=
  (next_index s =? length domains_to_test)%nat.

(** The whole of [run_test] under a schedule: the events up to the end of
    the loop, then lines 236-270.  [None] when [events] is not a complete
    schedule of the run. *)
Definition run_test (events : list event) (end_processing_time : Q)
    : option (py (list line)) :=
  match run initial events with
  | None => None
  | Some s =>
      match raised s with
      | Some e => Some (raise e)
      | None =>
          if loop_finished s then
            let total_duration :=
              (end_processing_time - start_processing_time)%Q in
            Some (try summary <-
                    print_summary dns_servers domains_to_test (vars s)
                      total_duration;
                  ret (stdout (vars s) ++ summary))
          else None
      end
  end.

End Engine.

(** ** Notions of the specification *)

(** The sum of the squared deviations of [data] from its mean. *)
Definition squared_deviations (data : list Q) : Q :=
  let m := (statistics.Qsum data / Qnat (length data))%Q in
  statistics.Qsum (map (fun x => (x - m) * (x - m))%Q data).

(** The sample variance: the squared deviations over [n - 1]. *)
Definition sample_variance (data : list Q) : Q :=
  (squared_deviations data / Qnat (length data - 1))%Q.

(** The population variance: the squared deviations over [n]. *)
Definition population_variance (data : list Q) : Q :=
  (squared_deviations data / Qnat (length data))%Q.

Definition sample_stdev (data : list Q) : R :=
  sqrt (Q2R (sample_variance data)).

Definition population_stdev (data : list Q) : R :=
  sqrt (Q2R (population_variance data)).

(** The error keys that the loop has tallied, in the order of completion:
    the keys of the records that line 219 takes for failures. *)
Definition observed_errors (records : list result) : list string :=
  omap (fun r => if truthy (r_error r) then r_error r else None) records.

(** The distinct keys of a sequence in the order in which each is first
    seen. *)
Fixpoint first_seen (keys : list string) : list string :=
  match keys with
  | [] => []
  | k :: ks => k :: List.filter (fun k' => negb (k' =? k)) (first_seen ks)
  end.

(** How often [key] occurs in [keys]. *)
Definition occurrences (key : string) (keys : list string) : nat :=
  count_occ string_dec keys key.

(** The entries of the error breakdown in a printed report, in order. *)
Definition error_entries (out : list line) : list (string * nat) :=
  omap (fun l => match l with
                 | ErrorEntry err_type count => Some (err_type, count)
                 | _ => None
                 end) out.

(** The run has come to its end: every task is finished and every result
    has been consumed. *)
Definition run_ended (s : system) : Prop :=
  Forall (fun t => task_status t = Finished) (tasks s) /\ completed s = [].

(** The tally of a sequence of error keys: what lines 220-221 make of
    [error_counts] when they see the keys one after the other. *)
Definition tally (keys : list string) : dict :=
  fold_left (fun d key => dict_set d key (dict_get d key 0 + 1)) keys [].

(** What holds of every state of a run of [run_test] over [domains] with a
    semaphore of [limit] slots. *)
Record invariant (limit : nat) (domains : list string) (s : system)
    : Prop := Invariant
  { inv_domains : map task_domain (tasks s) = domains;
    inv_slots : sem_value s + in_flight s = limit;
    inv_queried :
      Permutation (queried s)
        (map task_domain (List.filter is_started (tasks s)));
    inv_results :
      Permutation (map r_domain (records s ++ completed s))
        (map task_domain (List.filter is_finished (tasks s)));
    inv_index : next_index s = length (records s);
    inv_processed : total_processed (vars s) = next_index s;
    inv_counts :
      successful_lookups (vars s) + failed_lookups (vars s)
      = total_processed (vars s);
    inv_timings : length (timings (vars s)) = successful_lookups (vars s);
    inv_failed :
      failed_lookups (vars s) = length (observed_errors (records s));
    inv_tally : error_counts (vars s) = tally (observed_errors (records s));
    inv_raised : raised s = None }.

(** The steps that a task still has before it: to start, possibly to be
    woken, to settle, and to be consumed. *)
Definition task_weight (t : task) : nat :=
  match task_status t with
  | Created => 4
  | Waiting => 3
  | InFlight _ => 2
  | Finished => 0
  end.

(** A bound on the number of events that can still happen. *)
Definition remaining_work (s : system) : nat :=
  list_sum (map task_weight (tasks s)) + length (completed s).

(** * The set-up code

    The functions that prepare a run: [get_dns_servers_from_user],
    [load_domains_from_csv], [get_domains_for_test] and the main block.
    What the user types, what the file holds and what the random generator
    draws are inputs.  [download_and_extract_domain_list] (network, ZIP
    archive, file system) is not modelled: its result, the path of the CSV
    file or [None], is an input of [get_domains_for_test]. *)

(** ** Configuration (lines 14-26) *)

Definition LOCAL_CSV_FILENAME : string := "top-1m.csv".
Definition DEFAULT_DOMAINS_TO_TEST_COUNT : Z := 10000.

Definition FALLBACK_DOMAINS : list string :=
  [ "google.com"; "youtube.com"; "facebook.com"; "twitter.com"; "instagram.com";
    "wikipedia.org"; "amazon.com"; "yahoo.com"; "reddit.com"; "netflix.com";
    "office.com"; "linkedin.com"; "microsoft.com"; "apple.com"; "ebay.com";
    "bing.com"; "twitch.tv"; "stackoverflow.com"; "github.com"; "wordpress.org" ].

Definition DEFAULT_DNS_SERVER : string := "192.168.0.2".

(** ** What the set-up code prints *)
Inductive message : Type :=
| WarningMalformedRow (number : nat) (csv_filepath : string)
                      (row : list string)                      (* line 98 *)
| ErrorNoDomainsLoaded (csv_filepath : string)                 (* line 100 *)
| InfoLoaded (count : nat) (csv_filepath : string)             (* line 102 *)
| ErrorFileNotFound (csv_filepath : string)                    (* line 105 *)
| ErrorCouldNotRead (csv_filepath : string) (e : string)       (* line 108 *)
| InfoMustBePositive                                           (* line 125 *)
| InfoInvalidInput                                             (* line 128 *)
| WarningOnlyAvailable (requested : Z) (available : nat)       (* line 137 *)
| WarningCsvFailed                                             (* line 139 *)
| WarningNoDomainList (requested : Z)                          (* line 142 *)
| CriticalNoDomainsLoaded                                      (* line 146 *)
| CriticalNoDomains                                            (* line 292 *)
| DebugServers (servers : list string)                         (* line 296 *)
| CriticalNoServers.                                           (* line 300 *)

(** ** Strings and slices of Python *)

(** [l[:stop]] for an integer [stop]: a negative [stop] counts from the
    end. *)
Definition slice_to {A : Type} (l : list A) (stop : Z) : list A :=
  if (0 <=? stop)%Z then firstn (Z.to_nat stop) l
  else firstn (length l - Z.to_nat (- stop)) l.

(** [s.split(sep)] for a separator of one character: the pieces between
    the separators, empty pieces included. *)
Fixpoint split (sep : ascii) (s : string) : list string :=
  match s with
  | EmptyString => [EmptyString]
  | String c s' =>
      if Ascii.eqb c sep then EmptyString :: split sep s'
      else match split sep s' with
           | piece :: pieces => String c piece :: pieces
           | [] => [String c EmptyString]
           end
  end.

Section Setup.
(** Which characters [str.strip] takes for whitespace, and what [int] makes
    of a string ([None] for a [ValueError]): the two tables of Python that
    the set-up code relies on. *)
Variable isspace : ascii -> bool.
Variable int : string -> option Z.

Fixpoint lstrip (s : string) : string :=
  match s with
  | EmptyString => EmptyString
  | String c s' => if isspace c then lstrip s' else s
  end.

Fixpoint rstrip (s : string) : string :=
  match s with
  | EmptyString => EmptyString
  | String c s' =>
      match rstrip s' with
      | EmptyString => if isspace c then EmptyString else String c EmptyString
      | rest => String c rest
      end
  end.

(** [s.strip()]: the whitespace at both ends is removed. *)
Definition strip (s : string) : string := rstrip (lstrip s).

(** ** [get_dns_servers_from_user] (lines 272-281)

    [dns_input] is what the user types at the prompt. *)
Definition get_dns_servers_from_user (dns_input : string) : list string :=
  if dns_input =? "" then [DEFAULT_DNS_SERVER]
  else
    map strip
      (List.filter (fun server => negb (strip server =? ""))
         (split ","%char dns_input)).

(** ** [load_domains_from_csv] (lines 81-109)

    What [open] and [csv.reader] give for the path: no such file, another
    exception at [open], or rows; after the rows the reader comes to the end
    of the file or raises ([failure]). *)
Inductive csv_file : Type :=
| FileNotFound
| Unreadable (e : string)
| Reader (rows : list (list string)) (failure : option string).

(** Lines 90-98: the loop over the rows.  The next row is asked for
    before the test of line 91 is made; [i] is the index of [enumerate].
    The result is the exception that the reader raised, or [domains]. *)
Fixpoint read_rows (csv_filepath : string) (num_domains : Z)
    (rows : list (list string)) (failure : option string) (i : nat)
    (domains : list string) (out : list message)
    : (string + list string) * list message :=
  match rows with
  | [] =>
      match failure with
      | Some e => (inl e, out)
      | None => (inr domains, out)
      end
  | row :: rest =>
      if (num_domains <=? Z.of_nat (length domains))%Z then (inr domains, out)
      else if (2 <=? length row)%nat then
        let domain_name := strip (nth 1 row "") in
        if negb (domain_name =? "") then
          read_rows csv_filepath num_domains rest failure (S i)
            (domains ++ [domain_name]) out
        else
          read_rows csv_filepath num_domains rest failure (S i) domains out
      else if (i <? 5)%nat then
        read_rows csv_filepath num_domains rest failure (S i) domains
          (out ++ [WarningMalformedRow (i + 1) csv_filepath row])
      else
        read_rows csv_filepath num_domains rest failure (S i) domains out
  end.

Definition load_domains_from_csv (file : csv_file) (csv_filepath : string)
    (num_domains : Z) : option (list string) * list message :=
  match file with
  | FileNotFound => (None, [ErrorFileNotFound csv_filepath])
  | Unreadable e => (None, [ErrorCouldNotRead csv_filepath e])
  | Reader rows failure =>
      match read_rows csv_filepath num_domains rows failure 0 [] [] with
      | (inl e, out) => (None, out ++ [ErrorCouldNotRead csv_filepath e])
      | (inr [], out) => (None, out ++ [ErrorNoDomainsLoaded csv_filepath])
      | (inr domains, out) =>
          (Some domains, out ++ [InfoLoaded (length domains) csv_filepath])
      end
  end.

(** ** [get_domains_for_test] (lines 111-148)

    [csv_path] is what [download_and_extract_domain_list] returned, [file]
    what is found under this path, [num_domains_to_use_str] what the user
    types at the prompt. *)

(** Lines 119-129: the number of domains that the user wants. *)
Definition num_domains_to_use (num_domains_to_use_str : string)
    : Z * list message :=
  match (if num_domains_to_use_str =? ""
         then Some DEFAULT_DOMAINS_TO_TEST_COUNT
         else int num_domains_to_use_str) with
  | Some n =>
      if (n <=? 0)%Z
      then (DEFAULT_DOMAINS_TO_TEST_COUNT, [InfoMustBePositive])
      else (n, [])
  | None => (DEFAULT_DOMAINS_TO_TEST_COUNT, [InfoInvalidInput])
  end.

(** [FALLBACK_DOMAINS[:min(num_domains_to_use, len(FALLBACK_DOMAINS))]] *)
Definition fallback_list (n : Z) : list string :=
  slice_to FALLBACK_DOMAINS
    (Z.min n (Z.of_nat (length FALLBACK_DOMAINS))).

Definition get_domains_for_test (csv_path : option string) (file : csv_file)
    (num_domains_to_use_str : string) : list string * list message :=
  let '(n, out) := num_domains_to_use num_domains_to_use_str in
  let '(final_domains_list, out) :=
    if truthy csv_path then
      let path := match csv_path with Some p => p | None => "" end in
      let '(domains_from_csv, printed) := load_domains_from_csv file path n in
      match domains_from_csv with
      | Some (d :: ds) =>
          (d :: ds,
           out ++ printed ++
           (if (Z.of_nat (length (d :: ds)) <? n)%Z
            then [WarningOnlyAvailable n (length (d :: ds))] else []))
      | _ => (fallback_list n, out ++ printed ++ [WarningCsvFailed])
      end
    else (fallback_list n, out ++ [WarningNoDomainList n]) in
  match final_domains_list with
  | [] => (["google.com"; "cloudflare.com"], out ++ [CriticalNoDomainsLoaded])
  | _ => (final_domains_list, out)
  end.

(** ** The main block (lines 284-312) *)

(** [random.shuffle(x)]: for [i] from [len(x) - 1] down to 1 the elements
    at [i] and at a random index [j <= i] change places.  [randbelow i] is
    the number drawn at [i]; it is taken below [i + 1]. *)
Definition swap (x : list string) (i j : nat) : list string :=
  match x !! i, x !! j with
  | Some xi, Some xj => <[j := xi]> (<[i := xj]> x)
  | _, _ => x
  end.

Fixpoint shuffle_down (randbelow : nat -> nat) (i : nat) (x : list string)
    : list string :=
  match i with
  | 0 => x
  | S i' => shuffle_down randbelow i' (swap x i (randbelow i mod (i + 1)))
  end.

Definition shuffle (randbelow : nat -> nat) (x : list string) : list string :=
  shuffle_down randbelow (length x - 1) x.

(** What the main block does in the end: it gives up, or it calls
    [run_test]. *)
Inductive main_outcome : Type :=
| ExitNoDomains
| ExitNoServers
| CallRunTest (dns_servers domains_to_test : list string).

Definition main (csv_path : option string) (file : csv_file)
    (num_domains_to_use_str dns_input : string) (randbelow : nat -> nat)
    : main_outcome * list message :=
  let '(actual_domains_to_test, out) :=
    get_domains_for_test csv_path file num_domains_to_use_str in
  match actual_domains_to_test with
  | [] => (ExitNoDomains, out ++ [CriticalNoDomains])
  | _ =>
      let custom_dns_servers := get_dns_servers_from_user dns_input in
      let out := out ++ [DebugServers custom_dns_servers] in
      match custom_dns_servers with
      | [] => (ExitNoServers, out ++ [CriticalNoServers])
      | _ =>
          (CallRunTest custom_dns_servers
             (shuffle randbelow actual_domains_to_test), out)
      end
  end.

End Setup.

(** ** Notions for the set-up code *)

(** The characters of a string. *)
Fixpoint characters (s : string) : list ascii :=
  match s with
  | EmptyString => []
  | String c s' => c :: characters s'
  end.

(** The domains that a CSV file offers, in the order of its rows: the
    stripped second fields that are not empty. *)
Definition candidates (isspace : ascii -> bool) (rows : list (list string))
    : list string :=
  List.filter (fun d => negb (d =? ""))
    (map (fun row => strip isspace (nth 1 row ""))
       (List.filter (fun row => (2 <=? length row)%nat) rows)).

(** The whitespace of Python among the characters up to 255. *)
Definition python_isspace (c : ascii) : bool :=
  let n := nat_of_ascii c in
  ((9 <=? n) && (n <=? 13) || (28 <=? n) && (n <=? 32)
   || (n =? 133) || (n =? 160))%nat.

(** ** Notions for the run *)

(** The sum of the counts of a dictionary. *)
Definition dict_total (d : dict) : nat := list_sum (map snd d).

(** The records that line 219 takes for successes. *)
Definition successes (records : list result) : list result :=
  List.filter (fun r => negb (truthy (r_error r))) records.

(** What the [k]-th progress line of a run over [total] domains shows. *)
Definition progress_line_of (total k : nat) (l : line) : Prop :=
  match l with
  | Progress percent processed total' _ successes errors =>
      processed = k /\ total' = total /\ successes + errors = k /\
      (percent == Qnat k / Qnat total * 100)%Q
  | _ => False
  end.

(** * Properties *)

(** ** The query classifier *)

(** C6: a query that fails with Timeout is reported with the constant
    [TIMEOUT] as its elapsed time, whatever the clock read; a query with any
    other outcome (an answer, NXDOMAIN, NoAnswer, any other error) is
    reported with the measured time [end_time - start_time]. *)
Theorem query_domain_elapsed_time :
  forall (domain : string) (start_time end_time : Q),
    (forall e : exception,
        caught_by (exc_class e) = CatchTimeout ->
        query_domain (Raises e) domain start_time end_time
        = Result domain TIMEOUT (Some "Timeout")) /\
    (forall e : exception,
        caught_by (exc_class e) <> CatchTimeout ->
        r_time (query_domain (Raises e) domain start_time end_time)
        = (end_time - start_time)%Q) /\
    r_time (query_domain Answer domain start_time end_time)
    = (end_time - start_time)%Q.
Proof.
  intros domain start_time end_time. repeat split.
  - intros e Hto. unfold query_domain. now rewrite Hto.
  - intros e Hne. unfold query_domain.
    destruct (caught_by (exc_class e)); try reflexivity.
    now contradiction Hne.
Qed.

Lemma query_domain_elapsed_time_witness :
  query_domain
    (Raises (Exc (ExcType "LifetimeTimeout" CatchTimeout) "timed out"))
    "example.org" (1 # 2) (7 # 2)
  = Result "example.org" 2 (Some "Timeout")
  /\ r_time (query_domain
               (Raises (Exc (ExcType "NoNameservers" CatchException) "all failed"))
               "example.org" (1 # 2) (7 # 2))
     = ((7 # 2) - (1 # 2))%Q.
Proof.
  destruct (query_domain_elapsed_time "example.org" (1 # 2) (7 # 2))
    as (Hto & Hother & _).
  split.
  - apply Hto. reflexivity.
  - apply Hother. simpl. discriminate.
Defined.

(** C9: two errors of the same exception type that none of the three named
    clauses catches get the same error key, namely the name of the type,
    whatever their messages, domains and timings are; and the loop tallies
    them into the same entry of [error_counts]. *)
Theorem query_domain_key_from_type_only :
  forall (e1 e2 : exception) (domain1 domain2 : string)
         (start1 end1 start2 end2 : Q),
    exc_class e1 = exc_class e2 ->
    caught_by (exc_class e1) = CatchException ->
    let r1 := query_domain (Raises e1) domain1 start1 end1 in
    let r2 := query_domain (Raises e2) domain2 start2 end2 in
    r_error r1 = Some (type_name (exc_class e1)) /\
    r_error r1 = r_error r2 /\
    forall (domains : list string) (start : Q) (st st1 st2 : run_state)
           (i1 i2 : nat) (now1 now2 : Q),
      loop_body domains start st i1 r1 now1 = inr st1 ->
      loop_body domains start st i2 r2 now2 = inr st2 ->
      error_counts st1 = error_counts st2.
Proof.
  intros e1 e2 domain1 domain2 start1 end1 start2 end2 Hty Hother r1 r2.
  assert (Hk1 : r_error r1 = Some (type_name (exc_class e1))).
  { subst r1. unfold query_domain. now rewrite Hother. }
  assert (Hk2 : r_error r2 = Some (type_name (exc_class e1))).
  { subst r2. unfold query_domain. rewrite <- Hty. now rewrite Hother. }
  split; [exact Hk1|]. split; [congruence|].
  intros domains start st st1 st2 i1 i2 now1 now2 H1 H2.
  unfold loop_body in H1, H2. rewrite Hk1 in H1. rewrite Hk2 in H2.
  destruct (truthy (Some (type_name (exc_class e1))));
    unfold bind in H1, H2;
    repeat match goal with
           | H : match ?m with inl _ => _ | inr _ => _ end = inr _ |- _ =>
               destruct m; [discriminate H|]
           end;
    injection H1 as <-; injection H2 as <-; reflexivity.
Qed.

Lemma query_domain_key_from_type_only_witness :
  r_error (query_domain
             (Raises (Exc (ExcType "NoNameservers" CatchException) "SERVFAIL from 10.0.0.1"))
             "a.example" 0 1)
  = r_error (query_domain
               (Raises (Exc (ExcType "NoNameservers" CatchException) "REFUSED from 10.0.0.2"))
               "b.example" 3 5).
Proof.
  apply (query_domain_key_from_type_only
           (Exc (ExcType "NoNameservers" CatchException) "SERVFAIL from 10.0.0.1")
           (Exc (ExcType "NoNameservers" CatchException) "REFUSED from 10.0.0.2")
           "a.example" "b.example" 0 1 3 5);
    reflexivity.
Defined.

(** ** The library functions *)

Lemma insert_sorted_Permutation {A : Type} (before : A -> A -> bool)
    (x : A) (l : list A) :
  Permutation (insert_sorted before x l) (x :: l).
Proof.
  induction l as [|y ys IH]; simpl.
  - reflexivity.
  - destruct (before y x).
    + rewrite IH. apply perm_swap.
    + reflexivity.
Qed.

Lemma sorted_Permutation {A : Type} (before : A -> A -> bool) (l : list A) :
  Permutation (sorted before l) l.
Proof.
  induction l as [|x xs IH]; simpl.
  - reflexivity.
  - rewrite insert_sorted_Permutation. now rewrite IH.
Qed.

Lemma sorted_length {A : Type} (before : A -> A -> bool) (l : list A) :
  length (sorted before l) = length l.
Proof. apply Permutation_length, sorted_Permutation. Qed.

Lemma Qlt_bool_iff (a b : Q) : Qlt_bool a b = true <-> (a < b)%Q.
Proof.
  unfold Qlt_bool. rewrite negb_true_iff.
  split.
  - intros H. apply Qnot_le_lt. intros Hle.
    apply Qle_bool_iff in Hle. congruence.
  - intros H. destruct (Qle_bool b a) eqn:E; [|reflexivity].
    apply Qle_bool_iff in E. exfalso. exact (Qlt_not_le _ _ H E).
Qed.

Lemma pydiv_nonzero (a b : Q) :
  ~ (b == 0)%Q -> pydiv a b = inr (a / b)%Q.
Proof.
  intros Hb. unfold pydiv.
  destruct (Qeq_bool b 0) eqn:E; [|reflexivity].
  apply Qeq_bool_iff in E. contradiction.
Qed.

Lemma pydiv_positive (a b : Q) :
  Qlt_bool 0 b = true -> pydiv a b = inr (a / b)%Q.
Proof.
  intros Hb. apply pydiv_nonzero. apply Qlt_bool_iff in Hb.
  intros E. rewrite E in Hb. exact (Qlt_irrefl _ Hb).
Qed.

Lemma Qnat_positive (n : nat) : (0 < n)%nat -> (0 < Qnat n)%Q.
Proof.
  intros Hn. unfold Qnat, Qlt. simpl. lia.
Qed.

Lemma mean_nonempty (data : list Q) :
  data <> [] ->
  statistics.mean data = inr (statistics.Qsum data / Qnat (length data))%Q.
Proof. destruct data; [congruence | reflexivity]. Qed.

Lemma median_nonempty (data : list Q) :
  data <> [] -> exists m : Q, statistics.median data = inr m.
Proof.
  intros Hne. unfold statistics.median.
  rewrite sorted_length.
  destruct data as [|x xs]; [congruence|].
  cbn [length Nat.eqb].
  destruct (S (length xs) mod 2 =? 1)%nat; eexists; reflexivity.
Qed.

Lemma min_nonempty (data : list Q) :
  data <> [] -> exists m : Q, min data = inr m.
Proof. destruct data; [congruence|]. intros _. eexists. reflexivity. Qed.

Lemma max_nonempty (data : list Q) :
  data <> [] -> exists m : Q, max data = inr m.
Proof. destruct data; [congruence|]. intros _. eexists. reflexivity. Qed.

Lemma stdev_two_samples (data : list Q) :
  (1 <? length data)%nat = true ->
  statistics.stdev data
  = inr (sqrt (Q2R (statistics._ss data / Qnat (length data - 1)))).
Proof.
  intros Hn. apply Nat.ltb_lt in Hn.
  unfold statistics.stdev, statistics.variance.
  destruct (length data <? 2)%nat eqn:E.
  - apply Nat.ltb_lt in E. lia.
  - reflexivity.
Qed.

(** ** The shape of the summary *)

Lemma error_entries_app (out1 out2 : list line) :
  error_entries (out1 ++ out2) = error_entries out1 ++ error_entries out2.
Proof. unfold error_entries. apply omap_app. Qed.

Lemma error_entries_of_dict (d : list (string * nat)) :
  error_entries (map (fun '(err_type, count) => ErrorEntry err_type count) d)
  = d.
Proof.
  induction d as [|[k v] d IH]; [reflexivity|].
  unfold error_entries in *. cbn. now rewrite IH.
Qed.

(** The summary is printed without an exception, whatever the final
    variables and the duration are.  It consists of the counts and the error
    breakdown ([head]), followed either by the line that says that there
    are no metrics or by the metrics. *)
Lemma print_summary_shape (dns_servers domains_to_test : list string)
    (st : run_state) (total_duration : Q) :
  exists head : list line,
    (forall l, In l head ->
               is_metric_line l = false /\ l <> NoSuccessfulLookups) /\
    error_entries head
    = (if (0 <? failed_lookups st)%nat
       then sorted_errors (error_counts st) else []) /\
    match timings st with
    | [] =>
        print_summary dns_servers domains_to_test st total_duration
        = inr (head ++ [NoSuccessfulLookups])
    | _ :: _ =>
        exists average middle least greatest : Q,
          print_summary dns_servers domains_to_test st total_duration
          = inr (head
                 ++ [ PerformanceMetricsHeader;
                      AverageQueryTime (average * 1000);
                      MedianQueryTime (middle * 1000);
                      MinQueryTime (least * 1000);
                      MaxQueryTime (greatest * 1000) ]
                 ++ (if (1 <? length (timings st))%nat
                     then [ StandardDeviation
                              (sqrt (Q2R (statistics._ss (timings st)
                                          / Qnat (length (timings st) - 1)))
                               * 1000) ]
                     else [])
                 ++ (if Qlt_bool 0 total_duration
                     then [ OverallAverageQPS
                              (Qnat (length domains_to_test) / total_duration) ]
                     else []))
    end.
Proof.
  unfold print_summary.
  match goal with
  | |- context [match timings st with
                | [] => ret (?h ++ _)
                | _ :: _ => _
                end] => set (head := h)
  end.
  exists head. split; [|split].
  - intros l Hl. subst head.
    destruct (0 <? failed_lookups st)%nat.
    + apply in_app_or in Hl as [Hl | Hl].
      * simpl in Hl.
        repeat (destruct Hl as [<- | Hl]; [split; [reflexivity | discriminate]|]).
        contradiction.
      * destruct Hl as [<- | Hl]; [split; [reflexivity | discriminate]|].
        apply in_map_iff in Hl as ([k v] & <- & _).
        split; [reflexivity | discriminate].
    + simpl in Hl.
      repeat (destruct Hl as [<- | Hl]; [split; [reflexivity | discriminate]|]).
      contradiction.
  - subst head. destruct (0 <? failed_lookups st)%nat; [|reflexivity].
    rewrite error_entries_app. cbn [app].
    change (error_entries (ErrorBreakdownHeader :: ?l)) with (error_entries l).
    rewrite error_entries_of_dict. reflexivity.
  - destruct (timings st) as [|t ts] eqn:Et; [reflexivity|].
    assert (Hne : t :: ts <> []) by discriminate.
    rewrite (mean_nonempty _ Hne).
    destruct (median_nonempty _ Hne) as (middle & ->).
    destruct (min_nonempty _ Hne) as (least & ->).
    destruct (max_nonempty _ Hne) as (greatest & ->).
    exists (statistics.Qsum (t :: ts) / Qnat (length (t :: ts)))%Q,
      middle, least, greatest.
    cbn [bind].
    destruct (1 <? length (t :: ts))%nat eqn:En.
    + rewrite (stdev_two_samples _ En). cbn [bind ret].
      destruct (Qlt_bool 0 total_duration) eqn:Ed.
      * rewrite (pydiv_positive _ _ Ed). cbn [bind ret].
        rewrite <- ?app_assoc. reflexivity.
      * cbn [ret]. rewrite <- ?app_assoc. reflexivity.
    + cbn [bind ret].
      destruct (Qlt_bool 0 total_duration) eqn:Ed.
      * rewrite (pydiv_positive _ _ Ed). cbn [bind ret].
        rewrite <- ?app_assoc. reflexivity.
      * cbn [ret]. rewrite <- ?app_assoc. reflexivity.
Qed.

Lemma print_summary_total (dns_servers domains_to_test : list string)
    (st : run_state) (total_duration : Q) :
  exists out : list line,
    print_summary dns_servers domains_to_test st total_duration = inr out.
Proof.
  destruct (print_summary_shape dns_servers domains_to_test st total_duration)
    as (head & _ & _ & Hshape).
  destruct (timings st).
  - eexists. exact Hshape.
  - destruct Hshape as (? & ? & ? & ? & Hshape). eexists. exact Hshape.
Qed.

(** Without a successful lookup the summary has no line of the metrics. *)
Lemma print_summary_no_timings (dns_servers domains_to_test : list string)
    (st : run_state) (total_duration : Q) (out : list line) :
  timings st = [] ->
  print_summary dns_servers domains_to_test st total_duration = inr out ->
  In NoSuccessfulLookups out /\
  forall l, In l out -> is_metric_line l = false.
Proof.
  intros Et Hout.
  destruct (print_summary_shape dns_servers domains_to_test st total_duration)
    as (head & Hhead & _ & Hshape).
  rewrite Et in Hshape. rewrite Hshape in Hout. injection Hout as <-.
  split.
  - apply in_or_app. right. now left.
  - intros l Hl. apply in_app_or in Hl as [Hl | [<- | []]].
    + now apply Hhead.
    + reflexivity.
Qed.

(** The lines of the deviation and of the throughput in a summary. *)
Lemma print_summary_stdev_qps (dns_servers domains_to_test : list string)
    (st : run_state) (total_duration : Q) (out : list line) (l : line) :
  print_summary dns_servers domains_to_test st total_duration = inr out ->
  In l out ->
  (is_stdev_line l = true ->
   (1 <? length (timings st))%nat = true /\
   l = StandardDeviation
         (sqrt (Q2R (statistics._ss (timings st)
                     / Qnat (length (timings st) - 1))) * 1000)) /\
  (is_qps_line l = true ->
   timings st <> [] /\ Qlt_bool 0 total_duration = true /\
   l = OverallAverageQPS (Qnat (length domains_to_test) / total_duration)).
Proof.
  intros Hout Hl.
  destruct (print_summary_shape dns_servers domains_to_test st total_duration)
    as (head & Hhead & _ & Hshape).
  destruct (timings st) as [|t ts] eqn:Et.
  - rewrite Hshape in Hout. injection Hout as <-.
    apply in_app_or in Hl as [Hl | [<- | []]].
    + apply Hhead in Hl as [Hm _].
      split; intros Hk; destruct l; discriminate.
    + split; discriminate.
  - destruct Hshape as (average & middle & least & greatest & Hshape).
    rewrite Hshape in Hout. injection Hout as <-.
    apply in_app_or in Hl as [Hl | Hl].
    { apply Hhead in Hl as [Hm _].
      split; intros Hk; destruct l; discriminate. }
    cbn [app] in Hl.
    do 5 (destruct Hl as [<- | Hl]; [split; discriminate|]).
    apply in_app_or in Hl as [Hl | Hl].
    + cbn [length] in Hl |- *.
      destruct (1 <? S (length ts))%nat eqn:En; [|contradiction].
      destruct Hl as [<- | []].
      split; [intros _; split; reflexivity | discriminate].
    + destruct (Qlt_bool 0 total_duration) eqn:Ed; [|contradiction].
      destruct Hl as [<- | []].
      split; [discriminate|]. intros _. repeat split. discriminate.
Qed.

Lemma print_summary_has_stdev_qps (dns_servers domains_to_test : list string)
    (st : run_state) (total_duration : Q) (out : list line) :
  print_summary dns_servers domains_to_test st total_duration = inr out ->
  ((1 <? length (timings st))%nat = true ->
   In (StandardDeviation
         (sqrt (Q2R (statistics._ss (timings st)
                     / Qnat (length (timings st) - 1))) * 1000)) out) /\
  (timings st <> [] -> Qlt_bool 0 total_duration = true ->
   In (OverallAverageQPS (Qnat (length domains_to_test) / total_duration))
      out).
Proof.
  intros Hout.
  destruct (print_summary_shape dns_servers domains_to_test st total_duration)
    as (head & _ & _ & Hshape).
  destruct (timings st) as [|t ts] eqn:Et.
  - split; [discriminate | congruence].
  - destruct Hshape as (average & middle & least & greatest & Hshape).
    rewrite Hshape in Hout. injection Hout as <-.
    split.
    + intros En. cbn [app length] in En |- *. rewrite En.
      cbn [app]. rewrite ?in_app_iff. cbn [In].
      repeat (first [left; reflexivity | right]).
    + intros _ Ed. rewrite Ed.
      cbn [app]. rewrite ?in_app_iff. cbn [In].
      repeat (first [left; reflexivity | right]).
      apply in_or_app. right. now left.
Qed.

(** ** The reporter *)

(** C8: the summary is printed without an exception for every final state
    and duration; when no lookup succeeded it says so and has no line of the
    metrics, although [mean], [median], [min] and [max] raise on an empty
    sequence; and a line with the standard deviation, which [stdev] refuses
    to compute from fewer than two values, is printed only when there are at
    least two timings. *)
Theorem summary_of_empty_timings :
  forall (dns_servers domains_to_test : list string) (st : run_state)
         (total_duration : Q),
    (exists out : list line,
        print_summary dns_servers domains_to_test st total_duration = inr out /\
        (timings st = [] ->
         In NoSuccessfulLookups out /\
         forall l, In l out -> is_metric_line l = false) /\
        (forall l, In l out -> is_stdev_line l = true ->
                   (2 <= length (timings st))%nat)) /\
    statistics.mean [] = inl StatisticsError /\
    statistics.median [] = inl StatisticsError /\
    min [] = inl ValueError /\
    max [] = inl ValueError /\
    (forall x : Q, statistics.stdev [] = inl StatisticsError /\
                   statistics.stdev [x] = inl StatisticsError).
Proof.
  intros dns_servers domains_to_test st total_duration.
  split; [|repeat split; reflexivity].
  destruct (print_summary_total dns_servers domains_to_test st total_duration)
    as (out & Hout).
  exists out. split; [exact Hout|]. split.
  - intros Et. exact (print_summary_no_timings _ _ _ _ _ Et Hout).
  - intros l Hl Hsd.
    destruct (print_summary_stdev_qps _ _ _ _ _ _ Hout Hl) as [H _].
    destruct (H Hsd) as [Hn _]. apply Nat.ltb_lt in Hn. lia.
Qed.

(** C5, as the code has it: the summary is printed without an exception;
    every line of it that gives the overall throughput gives the number of
    domains divided by the total duration, and such a line is printed when
    a lookup succeeded and the duration is positive; when the duration is
    zero (or negative) no line reports a throughput. *)
Theorem overall_qps_guarded :
  forall (dns_servers domains_to_test : list string) (st : run_state)
         (total_duration : Q),
    exists out : list line,
      print_summary dns_servers domains_to_test st total_duration = inr out /\
      (forall q : Q,
          In (OverallAverageQPS q) out ->
          q = (Qnat (length domains_to_test) / total_duration)%Q /\
          (0 < total_duration)%Q) /\
      (timings st <> [] -> (0 < total_duration)%Q ->
       In (OverallAverageQPS (Qnat (length domains_to_test) / total_duration))
          out) /\
      (~ (0 < total_duration)%Q ->
       forall l, In l out -> is_qps_line l = false).
Proof.
  intros dns_servers domains_to_test st total_duration.
  destruct (print_summary_total dns_servers domains_to_test st total_duration)
    as (out & Hout).
  exists out. split; [exact Hout|].
  assert (Hq : forall l, In l out -> is_qps_line l = true ->
                 (0 < total_duration)%Q /\
                 l = OverallAverageQPS
                       (Qnat (length domains_to_test) / total_duration)).
  { intros l Hl Hk.
    destruct (print_summary_stdev_qps _ _ _ _ _ _ Hout Hl) as [_ H].
    destruct (H Hk) as (_ & Hd & ->). apply Qlt_bool_iff in Hd. now split. }
  split; [|split].
  - intros q Hin. destruct (Hq _ Hin eq_refl) as [Hd E].
    injection E as ->. now split.
  - intros Hne Hd.
    apply (print_summary_has_stdev_qps _ _ _ _ _ Hout); [exact Hne|].
    now apply Qlt_bool_iff.
  - intros Hd l Hl. destruct (is_qps_line l) eqn:Ek; [|reflexivity].
    destruct (Hq _ Hl Ek) as [Hpos _]. contradiction.
Qed.

Lemma overall_qps_guarded_witness :
  exists out : list line,
    print_summary ["192.168.0.2"] ["example.org"; "example.net"]
      (RunState 1 1 [("NXDOMAIN", 1)] [1 # 8] 2 []) 4 = inr out /\
    In (OverallAverageQPS (Qnat 2 / 4)) out.
Proof.
  destruct (overall_qps_guarded ["192.168.0.2"] ["example.org"; "example.net"]
              (RunState 1 1 [("NXDOMAIN", 1)] [1 # 8] 2 []) 4)
    as (out & Hout & _ & Hin & _).
  exists out. split; [exact Hout|].
  apply Hin; [discriminate | reflexivity].
Defined.

(** C5, as the specification has it, fails: in this run every reading of
    the clock is 5, so the one lookup succeeds and the total duration is 0;
    [run_test] returns, and nothing in its output reports a throughput,
    neither a number nor "undefined". *)
Lemma zero_duration_reports_no_throughput :
  exists out : list line,
    run_test CONCURRENT_REQUESTS ["192.168.0.2"] ["example.org"] 5
      [Start 0 5; Settle 0 Answer 5; Consume 5] 5 = Some (inr out) /\
    In (TotalProcessingTime 0) out /\
    In (SuccessfulLookups 1) out /\
    forallb (fun l => negb (is_qps_line l)) out = true.
Proof.
  eexists. split; [vm_compute; reflexivity|].
  split; [|split].
  - do 7 right. left. reflexivity.
  - do 8 right. left. reflexivity.
  - reflexivity.
Qed.

(** ** The standard deviation *)

Lemma Qnat_S (n : nat) : (Qnat (S n) == Qnat n + 1)%Q.
Proof.
  unfold Qnat. rewrite Nat2Z.inj_succ. unfold Z.succ.
  rewrite inject_Z_plus. reflexivity.
Qed.

Lemma Qsum_squared_differences (data : list Q) (m : Q) :
  (statistics.Qsum (map (fun x => (x - m) * (x - m)) data)
   == statistics.Qsum (map (fun x => x * x) data)
      - 2 * m * statistics.Qsum data
      + Qnat (length data) * (m * m))%Q.
Proof.
  induction data as [|x xs IH].
  - cbn [map statistics.Qsum fold_right length].
    change (Qnat 0) with 0%Q. ring.
  - cbn [map statistics.Qsum fold_right length].
    fold (statistics.Qsum (map (fun x => (x - m) * (x - m))%Q xs)).
    fold (statistics.Qsum (map (fun x => x * x)%Q xs)).
    fold (statistics.Qsum xs).
    rewrite IH, Qnat_S. ring.
Qed.

(** What [_ss] computes from the two sums is the sum of the squared
    deviations from the mean. *)
Lemma ss_squared_deviations (data : list Q) :
  data <> [] -> (statistics._ss data == squared_deviations data)%Q.
Proof.
  intros Hne. unfold statistics._ss, squared_deviations.
  rewrite Qsum_squared_differences.
  assert (Hn : ~ (Qnat (length data) == 0)%Q).
  { destruct data; [congruence|].
    intros E. pose proof (Qnat_positive (length (q :: data))) as Hp.
    cbn [length] in *. rewrite E in Hp.
    apply (Qlt_irrefl 0), Hp. lia. }
  field. exact Hn.
Qed.

Lemma stdev_sample_stdev (data : list Q) :
  data <> [] ->
  sqrt (Q2R (statistics._ss data / Qnat (length data - 1)))
  = sample_stdev data.
Proof.
  intros Hne. unfold sample_stdev, sample_variance.
  f_equal. apply Qeq_eqR.
  now rewrite (ss_squared_deviations data Hne).
Qed.

(** C4, as the code has it: the line of the standard deviation is printed
    exactly when there are at least two timings, and its value is the sample
    standard deviation of the timings (the squared deviations from the mean
    are divided by [n - 1]), in milliseconds. *)
Theorem reported_stdev_is_sample_stdev :
  forall (dns_servers domains_to_test : list string) (st : run_state)
         (total_duration : Q),
    exists out : list line,
      print_summary dns_servers domains_to_test st total_duration = inr out /\
      ((2 <= length (timings st))%nat ->
       In (StandardDeviation (sample_stdev (timings st) * 1000)) out) /\
      (forall v : R,
          In (StandardDeviation v) out ->
          (2 <= length (timings st))%nat /\
          v = (sample_stdev (timings st) * 1000)%R).
Proof.
  intros dns_servers domains_to_test st total_duration.
  destruct (print_summary_total dns_servers domains_to_test st total_duration)
    as (out & Hout).
  exists out. split; [exact Hout|]. split.
  - intros Hn.
    assert (Hne : timings st <> []).
    { intros E. rewrite E in Hn. cbn in Hn. lia. }
    rewrite <- (stdev_sample_stdev _ Hne).
    apply (print_summary_has_stdev_qps _ _ _ _ _ Hout).
    apply Nat.ltb_lt. lia.
  - intros v Hin.
    destruct (print_summary_stdev_qps _ _ _ _ _ _ Hout Hin) as [H _].
    destruct (H eq_refl) as [Hn E]. apply Nat.ltb_lt in Hn.
    assert (Hne : timings st <> []).
    { intros E'. rewrite E' in Hn. cbn in Hn. lia. }
    split; [lia|]. injection E as ->.
    now rewrite (stdev_sample_stdev _ Hne).
Qed.

Lemma reported_stdev_is_sample_stdev_witness :
  exists out : list line,
    print_summary ["192.168.0.2"] ["a.example"; "b.example"]
      (RunState 2 0 [] [1 # 4; 3 # 4] 2 []) 1 = inr out /\
    In (StandardDeviation (sample_stdev [1 # 4; 3 # 4] * 1000)) out.
Proof.
  destruct (reported_stdev_is_sample_stdev
              ["192.168.0.2"] ["a.example"; "b.example"]
              (RunState 2 0 [] [1 # 4; 3 # 4] 2 []) 1)
    as (out & Hout & Hin & _).
  exists out. split; [exact Hout|].
  apply Hin. simpl. lia.
Defined.

(** C4, as the specification has it, fails on its own example: three
    lookups succeed after 10 ms, 20 ms and 30 ms.  The summary gives 10 ms
    for the standard deviation, and the population standard deviation of
    these timings is below 9 ms. *)
Lemma reported_stdev_is_not_population_stdev :
  exists (s : system) (out : list line),
    run ["a.example"; "b.example"; "c.example"] 0
        (initial CONCURRENT_REQUESTS ["192.168.0.2"]
           ["a.example"; "b.example"; "c.example"])
        [ Start 0 0; Start 1 0; Start 2 0;
          Settle 0 Answer (1 # 100); Consume (1 # 100);
          Settle 1 Answer (2 # 100); Consume (2 # 100);
          Settle 2 Answer (3 # 100); Consume (3 # 100) ] = Some s /\
    timings (vars s) = [1 # 100; 2 # 100; 3 # 100] /\
    print_summary ["192.168.0.2"] ["a.example"; "b.example"; "c.example"]
      (vars s) (3 # 100) = inr out /\
    In (StandardDeviation 10) out /\
    (population_stdev (timings (vars s)) * 1000 < 9)%R.
Proof.
  eexists. 
  destruct (print_summary_total ["192.168.0.2"]
              ["a.example"; "b.example"; "c.example"]
              (RunState 3 0 [] [1 # 100; 2 # 100; 3 # 100] 3
                 [ TestingServers ["192.168.0.2"];
                   QueryingDomains 3 "A";
                   ConcurrentRequests 50;
                   Progress (100 # 3) 1 3 (100 # 1) 1 0;
                   Progress (200 # 3) 2 3 (200 # 2) 2 0;
                   Progress (300 # 3) 3 3 (300 # 3) 3 0 ])
              (3 # 100)) as (out & Hout).
  exists out.
  split; [vm_compute; reflexivity|].
  split; [reflexivity|].
  split; [exact Hout|].
  cbn [vars timings].
  split.
  - pose proof (print_summary_has_stdev_qps _ _ _ _ _ Hout) as [Hsd _].
    specialize (Hsd eq_refl). cbn [timings length] in Hsd.
    replace 10%R
      with (sqrt (Q2R (statistics._ss [1 # 100; 2 # 100; 3 # 100]
                       / Qnat (3 - 1))) * 1000)%R; [exact Hsd|].
    assert (E : (statistics._ss [1 # 100; 2 # 100; 3 # 100] / Qnat (3 - 1)
                 == 1 # 10000)%Q) by reflexivity.
    rewrite (Qeq_eqR _ _ E).
    rewrite (sqrt_lem_1 (Q2R (1 # 10000)) (1 / 100)%R);
      unfold Q2R; cbn [Qnum Qden]; lra.
  - unfold population_stdev.
    assert (E : (population_variance [1 # 100; 2 # 100; 3 # 100]
                 == 1 # 15000)%Q) by reflexivity.
    rewrite (Qeq_eqR _ _ E).
    assert (Hlt : (sqrt (Q2R (1 # 15000)) < sqrt ((9 / 1000) * (9 / 1000)))%R).
    { apply sqrt_lt_1_alt. unfold Q2R; cbn [Qnum Qden]. lra. }
    rewrite sqrt_square in Hlt; lra.
Qed.

(** ** Updating one task *)

Lemma task_update_split (l : list task) (i : nat) (t t' : task) :
  l !! i = Some t ->
  exists pre post : list task,
    l = pre ++ t :: post /\ <[i := t']> l = pre ++ t' :: post.
Proof.
  intros Hi. exists (take i l), (drop (S i) l). split.
  - symmetry. now apply take_drop_middle.
  - apply insert_take_drop. now apply lookup_lt_Some in Hi.
Qed.

Lemma update_keeps_domains (l : list task) (i : nat) (t t' : task) :
  l !! i = Some t -> task_domain t' = task_domain t ->
  map task_domain (<[i := t']> l) = map task_domain l.
Proof.
  intros Hi Hd. destruct (task_update_split l i t t' Hi) as (pre & post & -> & ->).
  rewrite !map_app. cbn [map]. now rewrite Hd.
Qed.

Lemma update_keeps_filter (p : task -> bool) (l : list task) (i : nat)
    (t t' : task) :
  l !! i = Some t -> task_domain t' = task_domain t -> p t' = p t ->
  map task_domain (List.filter p (<[i := t']> l))
  = map task_domain (List.filter p l).
Proof.
  intros Hi Hd Hp.
  destruct (task_update_split l i t t' Hi) as (pre & post & -> & ->).
  rewrite !List.filter_app, !map_app. cbn [List.filter]. rewrite Hp.
  destruct (p t); cbn [map]; now rewrite ?Hd.
Qed.

Lemma update_enters_filter (p : task -> bool) (l : list task) (i : nat)
    (t t' : task) :
  l !! i = Some t -> task_domain t' = task_domain t ->
  p t = false -> p t' = true ->
  Permutation (map task_domain (List.filter p (<[i := t']> l)))
              (task_domain t :: map task_domain (List.filter p l)).
Proof.
  intros Hi Hd Hp Hp'.
  destruct (task_update_split l i t t' Hi) as (pre & post & -> & ->).
  rewrite !List.filter_app, !map_app. cbn [List.filter]. rewrite Hp, Hp'.
  cbn [map]. rewrite Hd. symmetry. apply Permutation_middle.
Qed.

Lemma update_leaves_filter (p : task -> bool) (l : list task) (i : nat)
    (t t' : task) :
  l !! i = Some t -> task_domain t' = task_domain t ->
  p t = true -> p t' = false ->
  Permutation (map task_domain (List.filter p l))
              (task_domain t :: map task_domain (List.filter p (<[i := t']> l))).
Proof.
  intros Hi Hd Hp Hp'.
  destruct (task_update_split l i t t' Hi) as (pre & post & -> & ->).
  rewrite !List.filter_app, !map_app. cbn [List.filter]. rewrite Hp, Hp'.
  cbn [map]. symmetry. apply Permutation_middle.
Qed.

Lemma filter_length_domains (p : task -> bool) (l : list task) :
  length (List.filter p l) = length (map task_domain (List.filter p l)).
Proof. now rewrite length_map. Qed.

Lemma query_domain_domain (outcome : resolution) (domain : string)
    (start_time end_time : Q) :
  r_domain (query_domain outcome domain start_time end_time) = domain.
Proof.
  unfold query_domain. destruct outcome as [|e]; [reflexivity|].
  now destruct (caught_by (exc_class e)).
Qed.

(** ** The body of the loop *)

Lemma observed_errors_snoc (records : list result) (res : result) :
  observed_errors (records ++ [res])
  = observed_errors records
    ++ (if truthy (r_error res)
        then [match r_error res with Some k => k | None => "" end]
        else []).
Proof.
  unfold observed_errors. rewrite omap_app. f_equal.
  cbn. destruct (r_error res) as [k|]; [|reflexivity].
  cbn. now destruct (negb (k =? "")).
Qed.

Lemma tally_snoc (keys : list string) (key : string) :
  tally (keys ++ [key])
  = dict_set (tally keys) key (dict_get (tally keys) key 0 + 1).
Proof. unfold tally. now rewrite fold_left_app. Qed.

(** The body of the loop does not raise when there is a domain, and it
    counts the result on exactly one side. *)
Lemma loop_body_counts (domains : list string) (start : Q) (st : run_state)
    (i : nat) (res : result) (now : Q) :
  domains <> [] ->
  exists st' : run_state,
    loop_body domains start st i res now = inr st' /\
    total_processed st' = i + 1 /\
    (if truthy (r_error res)
     then successful_lookups st' = successful_lookups st /\
          failed_lookups st' = failed_lookups st + 1 /\
          timings st' = timings st /\
          error_counts st'
          = dict_set (error_counts st)
              (match r_error res with Some k => k | None => "" end)
              (dict_get (error_counts st)
                 (match r_error res with Some k => k | None => "" end) 0 + 1)
     else successful_lookups st' = successful_lookups st + 1 /\
          failed_lookups st' = failed_lookups st /\
          timings st' = timings st ++ [r_time res] /\
          error_counts st' = error_counts st).
Proof.
  intros Hne. unfold loop_body.
  assert (Hratio : pydiv (Qnat (i + 1)) (Qnat (length domains))
                   = inr (Qnat (i + 1) / Qnat (length domains))%Q).
  { apply pydiv_nonzero. intros E.
    pose proof (Qnat_positive (length domains)) as Hp. rewrite E in Hp.
    apply (Qlt_irrefl 0), Hp. destruct domains; [congruence | cbn; lia]. }
  rewrite Hratio.
  assert (Hqps : exists q : Q,
             (if Qlt_bool 0 (now - start)
              then pydiv (Qnat (i + 1)) (now - start)
              else ret 0%Q) = inr q).
  { destruct (Qlt_bool 0 (now - start)) eqn:E.
    - rewrite (pydiv_positive _ _ E). now eexists.
    - now eexists. }
  destruct Hqps as (q & ->).
  destruct (truthy (r_error res)); cbn [bind ret];
    eexists; (split; [reflexivity|]); cbn; auto.
Qed.

(** ** The invariant of the run *)

Section Invariant.
Variable limit : nat.
Variable dns_servers : list string.
Variable domains_to_test : list string.
Variable start_processing_time : Q.

Lemma invariant_initial :
  invariant limit domains_to_test (initial limit dns_servers domains_to_test).
Proof.
  assert (Hnone : forall p : task -> bool,
             p (Task "" Created) = false ->
             (forall d, p (Task d Created) = p (Task "" Created)) ->
             List.filter p (map (fun d => Task d Created) domains_to_test) = []).
  { intros p Hp Hd. induction domains_to_test as [|d ds IH]; [reflexivity|].
    cbn. now rewrite Hd, Hp. }
  constructor; cbn.
  - rewrite map_map. cbn. apply map_id.
  - unfold in_flight. cbn. rewrite Hnone by reflexivity. cbn. lia.
  - rewrite Hnone by reflexivity. constructor.
  - rewrite Hnone by reflexivity. constructor.
  - reflexivity.
  - reflexivity.
  - reflexivity.
  - reflexivity.
  - reflexivity.
  - reflexivity.
  - reflexivity.
Qed.

Lemma invariant_acquire (s : system) (i : nat) (domain : string)
    (status : task_state) (now : Q) :
  invariant limit domains_to_test s ->
  tasks s !! i = Some (Task domain status) ->
  status = Created \/ status = Waiting ->
  (0 < sem_value s)%nat ->
  invariant limit domains_to_test (acquire s i domain now).
Proof.
  intros Hinv Hi Hstatus Hsem.
  assert (Hold : is_in_flight (Task domain status) = false /\
                 is_started (Task domain status) = false /\
                 is_finished (Task domain status) = false)
    by (destruct Hstatus as [-> | ->]; repeat split).
  destruct Hold as (Hf & Hs & Hd).
  destruct Hinv. constructor; cbn; try assumption.
  - rewrite (update_keeps_domains _ _ _ _ Hi); [assumption | reflexivity].
  - unfold in_flight in *. cbn.
    rewrite filter_length_domains.
    rewrite (Permutation_length
               (update_enters_filter is_in_flight _ _ _
                  (Task domain (InFlight now)) Hi eq_refl Hf eq_refl)).
    cbn [length]. rewrite <- filter_length_domains. lia.
  - rewrite (update_enters_filter is_started _ _ _
               (Task domain (InFlight now)) Hi eq_refl Hs eq_refl).
    cbn [task_domain]. rewrite <- inv_queried0.
    symmetry. apply Permutation_cons_append.
  - rewrite (update_keeps_filter is_finished _ _ _
               (Task domain (InFlight now)) Hi eq_refl);
      [assumption | now rewrite Hd].
Qed.

Lemma invariant_suspend (s : system) (i : nat) (domain : string) :
  invariant limit domains_to_test s ->
  tasks s !! i = Some (Task domain Created) ->
  invariant limit domains_to_test (suspend s i domain).
Proof.
  intros Hinv Hi. destruct Hinv. constructor; cbn; try assumption.
  - rewrite (update_keeps_domains _ _ _ _ Hi); [assumption | reflexivity].
  - unfold in_flight in *. cbn.
    rewrite filter_length_domains.
    rewrite (update_keeps_filter is_in_flight _ _ _
               (Task domain Waiting) Hi eq_refl eq_refl).
    now rewrite <- filter_length_domains.
  - now rewrite (update_keeps_filter is_started _ _ _
                   (Task domain Waiting) Hi eq_refl eq_refl).
  - now rewrite (update_keeps_filter is_finished _ _ _
                   (Task domain Waiting) Hi eq_refl eq_refl).
Qed.

Lemma invariant_settle (s : system) (i : nat) (domain : string)
    (start_time : Q) (res : result) :
  invariant limit domains_to_test s ->
  tasks s !! i = Some (Task domain (InFlight start_time)) ->
  r_domain res = domain ->
  invariant limit domains_to_test (settle s i domain res).
Proof.
  intros Hinv Hi Hres. destruct Hinv. constructor; cbn; try assumption.
  - rewrite (update_keeps_domains _ _ _ _ Hi); [assumption | reflexivity].
  - unfold in_flight in *. cbn.
    pose proof (Permutation_length
                  (update_leaves_filter is_in_flight _ _ _
                     (Task domain Finished) Hi eq_refl eq_refl eq_refl)) as Hlen.
    cbn [length] in Hlen. rewrite <- !filter_length_domains in Hlen. lia.
  - now rewrite (update_keeps_filter is_started _ _ _
                   (Task domain Finished) Hi eq_refl eq_refl).
  - rewrite (update_enters_filter is_finished _ _ _
               (Task domain Finished) Hi eq_refl eq_refl eq_refl).
    cbn [task_domain]. rewrite <- inv_results0.
    rewrite app_assoc, map_app. cbn [map]. rewrite Hres.
    symmetry. apply Permutation_cons_append.
Qed.

(** A result waits to be consumed only if a task has finished, so only if
    there is a domain. *)
Lemma completed_needs_domain (s : system) (res : result) (rest : list result) :
  invariant limit domains_to_test s ->
  completed s = res :: rest ->
  domains_to_test <> [].
Proof.
  intros Hinv Hc E. destruct Hinv.
  rewrite E in inv_domains0. apply map_eq_nil in inv_domains0.
  rewrite inv_domains0, Hc in inv_results0. cbn in inv_results0.
  apply Permutation_length in inv_results0.
  rewrite length_map, length_app in inv_results0. cbn in inv_results0. lia.
Qed.

Lemma invariant_consume (s : system) (res : result) (rest : list result)
    (now : Q) :
  invariant limit domains_to_test s ->
  completed s = res :: rest ->
  invariant limit domains_to_test
    (consume domains_to_test start_processing_time s res rest now).
Proof.
  intros Hinv Hc.
  pose proof (completed_needs_domain s res rest Hinv Hc) as Hne.
  destruct (loop_body_counts domains_to_test start_processing_time (vars s)
              (next_index s) res now Hne) as (st' & Hbody & Htotal & Hcount).
  unfold consume. rewrite Hbody.
  destruct Hinv. rewrite Hc in inv_results0.
  constructor;
    cbn [sem_value tasks completed next_index vars raised queried records].
  - assumption.
  - assumption.
  - assumption.
  - now rewrite <- app_assoc.
  - rewrite length_app. cbn. lia.
  - exact Htotal.
  - destruct (truthy (r_error res));
      destruct Hcount as (-> & -> & _ & _); lia.
  - destruct (truthy (r_error res));
      destruct Hcount as (-> & _ & -> & _); [assumption|].
    rewrite length_app. cbn. lia.
  - rewrite observed_errors_snoc, length_app.
    destruct (truthy (r_error res));
      destruct Hcount as (_ & -> & _ & _); cbn; lia.
  - rewrite observed_errors_snoc.
    destruct (truthy (r_error res));
      destruct Hcount as (_ & _ & _ & ->).
    + cbv iota. rewrite tally_snoc. now rewrite inv_tally0.
    + cbv iota. now rewrite app_nil_r.
  - reflexivity.
Qed.

Lemma invariant_step (s s' : system) (ev : event) :
  invariant limit domains_to_test s ->
  step domains_to_test start_processing_time s ev = Some s' ->
  invariant limit domains_to_test s'.
Proof.
  intros Hinv Hstep. unfold step in Hstep.
  destruct (raised s); [discriminate|].
  destruct ev as [i now | i now | i outcome now | now].
  - destruct (tasks s !! i) as [[domain status]|] eqn:Hi; [|discriminate].
    destruct status; try discriminate.
    destruct (0 <? sem_value s)%nat eqn:Hsem; injection Hstep as <-.
    + apply Nat.ltb_lt in Hsem. eapply invariant_acquire; eauto.
    + now apply invariant_suspend.
  - destruct (tasks s !! i) as [[domain status]|] eqn:Hi; [|discriminate].
    destruct status; try discriminate.
    destruct (0 <? sem_value s)%nat eqn:Hsem; [|discriminate].
    injection Hstep as <-.
    apply Nat.ltb_lt in Hsem. eapply invariant_acquire; eauto.
  - destruct (tasks s !! i) as [[domain status]|] eqn:Hi; [|discriminate].
    destruct status; try discriminate.
    injection Hstep as <-.
    eapply invariant_settle; eauto. apply query_domain_domain.
  - destruct (completed s) as [|res rest] eqn:Hc; [discriminate|].
    injection Hstep as <-. now apply invariant_consume.
Qed.

Lemma invariant_run (events : list event) (s s' : system) :
  invariant limit domains_to_test s ->
  run domains_to_test start_processing_time s events = Some s' ->
  invariant limit domains_to_test s'.
Proof.
  revert s. induction events as [|ev events IH]; intros s Hinv Hrun.
  - cbn in Hrun. now injection Hrun as <-.
  - cbn in Hrun.
    destruct (step domains_to_test start_processing_time s ev) as [s1|] eqn:Hs;
      [|discriminate].
    apply (IH s1); [|exact Hrun]. eapply invariant_step; eauto.
Qed.

Lemma invariant_reachable (events : list event) (s : system) :
  run domains_to_test start_processing_time
      (initial limit dns_servers domains_to_test) events = Some s ->
  invariant limit domains_to_test s.
Proof. apply invariant_run, invariant_initial. Qed.

End Invariant.

(** ** The concurrency limiter *)

Lemma filter_length_all {A : Type} (p : A -> bool) (l : list A) :
  length (List.filter p l) = length l <-> Forall (fun x => p x = true) l.
Proof.
  induction l as [|x xs IH]; cbn.
  - split; [constructor | reflexivity].
  - pose proof (List.filter_length_le p xs) as Hle.
    destruct (p x) eqn:Hp; cbn; split.
    + intros E. constructor; [exact Hp|]. apply IH. lia.
    + intros H. inversion H; subst. f_equal. now apply IH.
    + intros E. lia.
    + intros H. inversion H; subst. congruence.
Qed.

(** C1: in every state that a run over [D] domains with a semaphore of
    [limit] slots can reach, at most [min limit D] queries are in flight. *)
Theorem in_flight_never_exceeds_ceiling :
  forall (limit : nat) (dns_servers domains_to_test : list string)
         (start_processing_time : Q) (events : list event) (s : system),
    run domains_to_test start_processing_time
        (initial limit dns_servers domains_to_test) events = Some s ->
    (in_flight s <= Nat.min limit (length domains_to_test))%nat.
Proof.
  intros limit dns_servers domains_to_test start_processing_time events s Hrun.
  destruct (invariant_reachable _ _ _ _ _ _ Hrun).
  apply Nat.min_glb.
  - lia.
  - rewrite <- inv_domains0, length_map. apply List.filter_length_le.
Qed.

Lemma in_flight_never_exceeds_ceiling_witness :
  exists s : system,
    run ["a.example"; "b.example"; "c.example"] 0
        (initial 2 ["192.168.0.2"] ["a.example"; "b.example"; "c.example"])
        [Start 2 0; Start 0 (1 # 10); Start 1 (1 # 5)] = Some s /\
    in_flight s = 2 /\
    (in_flight s <= Nat.min 2 3)%nat.
Proof.
  eexists. split; [vm_compute; reflexivity|].
  split; [reflexivity|].
  apply (in_flight_never_exceeds_ceiling 2 ["192.168.0.2"]
           ["a.example"; "b.example"; "c.example"] 0
           [Start 2 0; Start 0 (1 # 10); Start 1 (1 # 5)]).
  vm_compute. reflexivity.
Defined.

(** ** The run coordinator *)

Section Coordination.
Variable limit : nat.
Variable dns_servers : list string.
Variable domains_to_test : list string.
Variable start_processing_time : Q.

(** The results consumed so far are as many as [total_processed] says, and
    all of them are consumed exactly when the run has ended. *)
Lemma processed_all_iff_ended (s : system) :
  invariant limit domains_to_test s ->
  (total_processed (vars s) <= length domains_to_test)%nat /\
  (total_processed (vars s) = length domains_to_test <-> run_ended s).
Proof.
  intros Hinv. destruct Hinv.
  pose proof (Permutation_length inv_results0) as Hlen.
  rewrite !length_map, length_app in Hlen.
  pose proof (List.filter_length_le is_finished (tasks s)) as Hle.
  assert (Hd : length (tasks s) = length domains_to_test)
    by now rewrite <- inv_domains0, length_map.
  assert (Hall : length (List.filter is_finished (tasks s)) = length (tasks s)
                 <-> Forall (fun t => task_status t = Finished) (tasks s)).
  { rewrite filter_length_all. apply Forall_iff. intros [d status].
    unfold is_finished. cbn. destruct status; split; congruence. }
  split; [lia|]. unfold run_ended. split.
  - intros E. split.
    + apply Hall. lia.
    + apply length_zero_iff_nil. lia.
  - intros [Hfin Hc]. apply Hall in Hfin. rewrite Hc in Hlen. cbn in Hlen. lia.
Qed.

(** Nothing happens after the end of the run. *)
Lemma run_ended_final (s : system) (ev : event) :
  run_ended s -> step domains_to_test start_processing_time s ev = None.
Proof.
  intros [Hfin Hc]. unfold step.
  destruct (raised s); [reflexivity|].
  assert (Hlook : forall i, match tasks s !! i with
                            | Some t => task_status t = Finished
                            | None => True
                            end).
  { intros i. destruct (tasks s !! i) as [t|] eqn:Hi; [|exact I].
    rewrite List.Forall_forall in Hfin. apply Hfin.
    apply list_elem_of_In. eapply list_elem_of_lookup_2; eauto. }
  destruct ev as [i now | i now | i outcome now | now].
  - specialize (Hlook i). destruct (tasks s !! i) as [[d status]|]; [|reflexivity].
    cbn in Hlook. now subst status.
  - specialize (Hlook i). destruct (tasks s !! i) as [[d status]|]; [|reflexivity].
    cbn in Hlook. now subst status.
  - specialize (Hlook i). destruct (tasks s !! i) as [[d status]|]; [|reflexivity].
    cbn in Hlook. now subst status.
  - now rewrite Hc.
Qed.

(** Only the consumption of a result changes the variables of the
    coordinator, and it adds one to [total_processed] and to exactly one of
    the two counters. *)
Lemma step_counts (s s' : system) (ev : event) :
  invariant limit domains_to_test s ->
  step domains_to_test start_processing_time s ev = Some s' ->
  match ev with
  | Consume _ =>
      total_processed (vars s') = total_processed (vars s) + 1 /\
      ((successful_lookups (vars s') = successful_lookups (vars s) + 1 /\
        failed_lookups (vars s') = failed_lookups (vars s)) \/
       (successful_lookups (vars s') = successful_lookups (vars s) /\
        failed_lookups (vars s') = failed_lookups (vars s) + 1))
  | _ => vars s' = vars s
  end.
Proof.
  intros Hinv Hstep. unfold step in Hstep.
  destruct (raised s); [discriminate|].
  destruct ev as [i now | i now | i outcome now | now].
  - destruct (tasks s !! i) as [[domain status]|]; [|discriminate].
    destruct status; try discriminate.
    destruct (0 <? sem_value s)%nat; now injection Hstep as <-.
  - destruct (tasks s !! i) as [[domain status]|]; [|discriminate].
    destruct status; try discriminate.
    destruct (0 <? sem_value s)%nat; [|discriminate]. now injection Hstep as <-.
  - destruct (tasks s !! i) as [[domain status]|]; [|discriminate].
    destruct status; try discriminate. now injection Hstep as <-.
  - destruct (completed s) as [|res rest] eqn:Hc; [discriminate|].
    injection Hstep as <-.
    pose proof (completed_needs_domain _ _ _ _ _ Hinv Hc) as Hne.
    destruct (loop_body_counts domains_to_test start_processing_time (vars s)
                (next_index s) res now Hne) as (st' & Hbody & Htotal & Hcount).
    unfold consume. rewrite Hbody. cbn [vars].
    destruct Hinv. split; [lia|].
    destruct (truthy (r_error res)).
    + right. now destruct Hcount as (-> & -> & _).
    + left. now destruct Hcount as (-> & -> & _).
Qed.

End Coordination.

(** ** Every run comes to its end *)

Section Progress.
Variable limit : nat.
Variable dns_servers : list string.
Variable domains_to_test : list string.
Variable start_processing_time : Q.

Lemma update_weight (l : list task) (i : nat) (t t' : task) (w w' : nat) :
  l !! i = Some t -> task_weight t = w -> task_weight t' = w' ->
  list_sum (map task_weight (<[i := t']> l)) + w
  = list_sum (map task_weight l) + w'.
Proof.
  intros Hi <- <-.
  destruct (task_update_split l i t t' Hi) as (pre & post & -> & ->).
  rewrite !map_app, !list_sum_app. cbn. lia.
Qed.

(** Every event uses up some of the remaining work. *)
Lemma step_decreases (s s' : system) (ev : event) :
  step domains_to_test start_processing_time s ev = Some s' ->
  (remaining_work s' < remaining_work s)%nat.
Proof.
  intros Hstep. unfold step in Hstep.
  destruct (raised s); [discriminate|].
  unfold remaining_work.
  destruct ev as [i now | i now | i outcome now | now].
  - destruct (tasks s !! i) as [[domain status]|] eqn:Hi; [|discriminate].
    destruct status; try discriminate.
    destruct (0 <? sem_value s)%nat; injection Hstep as <-;
      unfold acquire, suspend; cbn [tasks completed].
    + pose proof (update_weight _ _ _ (Task domain (InFlight now)) 4 2
                    Hi eq_refl eq_refl) as H.
      lia.
    + pose proof (update_weight _ _ _ (Task domain Waiting) 4 3
                    Hi eq_refl eq_refl) as H.
      lia.
  - destruct (tasks s !! i) as [[domain status]|] eqn:Hi; [|discriminate].
    destruct status; try discriminate.
    destruct (0 <? sem_value s)%nat; [|discriminate].
    injection Hstep as <-. unfold acquire; cbn [tasks completed].
    pose proof (update_weight _ _ _ (Task domain (InFlight now)) 3 2
                    Hi eq_refl eq_refl) as H.
    lia.
  - destruct (tasks s !! i) as [[domain status]|] eqn:Hi; [|discriminate].
    destruct status; try discriminate.
    injection Hstep as <-. unfold settle; cbn [tasks completed].
    rewrite length_app. cbn [length].
    pose proof (update_weight _ _ _ (Task domain Finished) 2 0
                  Hi eq_refl eq_refl) as H.
    lia.
  - destruct (completed s) as [|res rest] eqn:Hc; [discriminate|].
    injection Hstep as <-. unfold consume.
    destruct (loop_body _ _ _ _ _ _); cbn [tasks completed length]; lia.
Qed.

(** A task that is not finished can be found by its index. *)
Lemma unfinished_task (l : list task) :
  Forall (fun t => task_status t = Finished) l \/
  exists (i : nat) (t : task), l !! i = Some t /\ task_status t <> Finished.
Proof.
  induction l as [|t l IH].
  - left. constructor.
  - destruct (task_status t) eqn:Et;
      try (right; exists 0, t; split; [reflexivity | congruence]).
    destruct IH as [IH | (i & t' & Hi & Hne)].
    + left. now constructor.
    + right. exists (S i), t'. now split.
Qed.

Lemma in_flight_task (l : list task) :
  List.filter is_in_flight l <> [] ->
  exists (i : nat) (domain : string) (start_time : Q),
    l !! i = Some (Task domain (InFlight start_time)).
Proof.
  induction l as [|[d status] l IH]; [now intros []|].
  intros Hne. destruct status;
    try (cbn in Hne; destruct (IH Hne) as (i & d' & t0 & Hi);
         exists (S i), d', t0; exact Hi).
  exists 0, d, start_time. reflexivity.
Qed.

(** With at least one slot, a run that has not ended has an event that can
    happen: there is no deadlock. *)
Lemma progress (s : system) :
  (1 <= limit)%nat ->
  invariant limit domains_to_test s ->
  run_ended s \/
  exists (ev : event) (s' : system),
    step domains_to_test start_processing_time s ev = Some s'.
Proof.
  intros Hlimit Hinv.
  pose proof (inv_raised _ _ _ Hinv) as Hraised.
  pose proof (inv_slots _ _ _ Hinv) as Hslots.
  destruct (completed s) as [|res rest] eqn:Hc.
  2:{ right. exists (Consume 0). eexists. unfold step. now rewrite Hraised, Hc. }
  destruct (unfinished_task (tasks s)) as [Hfin | (i & [d status] & Hi & Hne)].
  { left. now split. }
  right. cbn in Hne. unfold step. rewrite Hraised.
  destruct (List.filter is_in_flight (tasks s)) as [|t ts] eqn:Hf.
  - assert (Hsem : (0 <? sem_value s)%nat = true).
    { apply Nat.ltb_lt. unfold in_flight in Hslots.
      rewrite Hf in Hslots. cbn in Hslots. lia. }
    destruct status as [| |t0|].
    + exists (Start i 0). eexists. now rewrite Hi, Hsem.
    + exists (Wake i 0). eexists. now rewrite Hi, Hsem.
    + exfalso.
      apply list_elem_of_lookup_2 in Hi. apply list_elem_of_In in Hi.
      assert (Hin : In (Task d (InFlight t0))
                       (List.filter is_in_flight (tasks s)))
        by (apply List.filter_In; now split).
      rewrite Hf in Hin. exact Hin.
    + congruence.
  - destruct (in_flight_task (tasks s)) as (j & d' & t0 & Hj).
    { rewrite Hf. discriminate. }
    exists (Settle j Answer 0). eexists. now rewrite Hj.
Qed.

End Progress.

Lemma run_completes (limit : nat) (domains_to_test : list string)
    (start_processing_time : Q) :
  (1 <= limit)%nat ->
  forall (n : nat) (s : system),
    (remaining_work s <= n)%nat ->
    invariant limit domains_to_test s ->
    exists (events : list event) (s' : system),
      run domains_to_test start_processing_time s events = Some s' /\
      run_ended s'.
Proof.
  intros Hlimit n. induction n as [|n IH]; intros s Hwork Hinv.
  - destruct (progress limit domains_to_test start_processing_time s Hlimit Hinv)
      as [Hend | (ev & s' & Hstep)].
    + exists [], s. now split.
    + apply step_decreases in Hstep. lia.
  - destruct (progress limit domains_to_test start_processing_time s Hlimit Hinv)
      as [Hend | (ev & s' & Hstep)].
    + exists [], s. now split.
    + destruct (IH s') as (events & s'' & Hrun & Hend).
      * apply step_decreases in Hstep. lia.
      * eapply invariant_step; eauto.
      * exists (ev :: events), s''. split; [|exact Hend].
        cbn [run]. now rewrite Hstep.
Qed.

(** C2: in every state of a run the two counters add up to
    [total_processed]; only the consumption of a result changes them, and
    it adds one to [total_processed] and to exactly one of the counters;
    [total_processed] never exceeds the number of domains and equals it
    exactly when the run has ended, after which no event happens; and with at
    least one slot every run can be brought to this end. *)
Theorem counters_add_up_to_processed :
  forall (limit : nat) (dns_servers domains_to_test : list string)
         (start_processing_time : Q) (events : list event) (s : system),
    run domains_to_test start_processing_time
        (initial limit dns_servers domains_to_test) events = Some s ->
    successful_lookups (vars s) + failed_lookups (vars s)
    = total_processed (vars s) /\
    (forall (ev : event) (s' : system),
        step domains_to_test start_processing_time s ev = Some s' ->
        match ev with
        | Consume _ =>
            total_processed (vars s') = total_processed (vars s) + 1 /\
            ((successful_lookups (vars s') = successful_lookups (vars s) + 1 /\
              failed_lookups (vars s') = failed_lookups (vars s)) \/
             (successful_lookups (vars s') = successful_lookups (vars s) /\
              failed_lookups (vars s') = failed_lookups (vars s) + 1))
        | _ => vars s' = vars s
        end) /\
    (total_processed (vars s) <= length domains_to_test)%nat /\
    (total_processed (vars s) = length domains_to_test <-> run_ended s) /\
    (run_ended s ->
     forall ev : event,
       step domains_to_test start_processing_time s ev = None) /\
    ((1 <= limit)%nat ->
     exists (events' : list event) (s' : system),
       run domains_to_test start_processing_time s events' = Some s' /\
       run_ended s').
Proof.
  intros limit dns_servers domains_to_test start_processing_time events s Hrun.
  pose proof (invariant_reachable _ _ _ _ _ _ Hrun) as Hinv.
  destruct (processed_all_iff_ended limit domains_to_test s Hinv) as [Hle Hiff].
  split; [apply (inv_counts _ _ _ Hinv)|].
  split; [intros ev s'; now apply (step_counts limit)|].
  split; [exact Hle|]. split; [exact Hiff|].
  split; [intros Hend ev; now apply run_ended_final|].
  intros Hlimit.
  now apply (run_completes limit domains_to_test start_processing_time Hlimit
               (remaining_work s)).
Qed.

Lemma counters_add_up_to_processed_witness :
  exists s : system,
    run ["a.example"; "b.example"] 0
        (initial 1 ["192.168.0.2"] ["a.example"; "b.example"])
        [ Start 0 0; Start 1 0;
          Settle 0 (Raises (Exc (ExcType "NXDOMAIN" CatchNXDOMAIN) "no such name"))
            (1 # 10);
          Wake 1 (1 # 10); Consume (1 # 5);
          Settle 1 Answer (3 # 10); Consume (2 # 5) ] = Some s /\
    successful_lookups (vars s) = 1 /\
    failed_lookups (vars s) = 1 /\
    successful_lookups (vars s) + failed_lookups (vars s)
    = total_processed (vars s) /\
    total_processed (vars s) = 2.
Proof.
  eexists. split; [vm_compute; reflexivity|].
  split; [reflexivity|]. split; [reflexivity|]. split; [|reflexivity].
  apply (counters_add_up_to_processed 1 ["192.168.0.2"]
           ["a.example"; "b.example"] 0
           [ Start 0 0; Start 1 0;
             Settle 0 (Raises (Exc (ExcType "NXDOMAIN" CatchNXDOMAIN) "no such name"))
               (1 # 10);
             Wake 1 (1 # 10); Consume (1 # 5);
             Settle 1 Answer (3 # 10); Consume (2 # 5) ]).
  vm_compute. reflexivity.
Defined.

(** ** One record for each domain *)

Lemma count_filter_le (p q : task -> bool) (l : list task) (d : string) :
  (forall t, p t = true -> q t = true) ->
  (occurrences d (map task_domain (List.filter p l))
   <= occurrences d (map task_domain (List.filter q l)))%nat.
Proof.
  intros Hpq. unfold occurrences.
  induction l as [|t l IH]; [reflexivity|].
  cbn [List.filter]. destruct (p t) eqn:Hp.
  - rewrite (Hpq t Hp). cbn [map count_occ].
    destruct (string_dec (task_domain t) d); lia.
  - destruct (q t); [|exact IH]. cbn [map count_occ].
    destruct (string_dec (task_domain t) d); lia.
Qed.

Lemma filter_all (p : task -> bool) (l : list task) :
  Forall (fun t => p t = true) l -> List.filter p l = l.
Proof.
  induction 1 as [|t l Ht _ IH]; [reflexivity|].
  cbn. now rewrite Ht, IH.
Qed.

Lemma occurrences_Permutation (d : string) (l1 l2 : list string) :
  Permutation l1 l2 -> occurrences d l1 = occurrences d l2.
Proof.
  intros H. unfold occurrences.
  now apply (Permutation_count_occ string_dec).
Qed.

(** C3: the run queries and records every entry of the list of domains
    once.  At any moment a domain has been passed to the resolver at most as
    often as it occurs in the list, and has at most as many records as it
    has been queried; when the run has ended, the queried domains and the
    domains of the records are each the list of domains up to order, and the
    two counters account for all of them.  So, when no domain occurs twice in
    the list, every domain of the list is queried exactly once and has
    exactly one record. *)
Theorem one_record_per_domain :
  forall (limit : nat) (dns_servers domains_to_test : list string)
         (start_processing_time : Q) (events : list event) (s : system),
    run domains_to_test start_processing_time
        (initial limit dns_servers domains_to_test) events = Some s ->
    (forall d : string,
        (occurrences d (map r_domain (records s)) <= occurrences d (queried s)
         <= occurrences d domains_to_test)%nat) /\
    (run_ended s ->
     Permutation (queried s) domains_to_test /\
     Permutation (map r_domain (records s)) domains_to_test /\
     successful_lookups (vars s) + failed_lookups (vars s)
     = length domains_to_test /\
     (List.NoDup domains_to_test ->
      forall d : string,
        In d domains_to_test ->
        occurrences d (queried s) = 1 /\
        occurrences d (map r_domain (records s)) = 1)).
Proof.
  intros limit dns_servers domains_to_test start_processing_time events s Hrun.
  pose proof (invariant_reachable _ _ _ _ _ _ Hrun) as Hinv.
  destruct (processed_all_iff_ended limit domains_to_test s Hinv) as [_ Hiff].
  destruct Hinv. split.
  - intros d. split.
    + rewrite (occurrences_Permutation d _ _ inv_queried0).
      apply Nat.le_trans
        with (occurrences d (map r_domain (records s ++ completed s))).
      * rewrite map_app. unfold occurrences. rewrite count_occ_app. lia.
      * rewrite (occurrences_Permutation d _ _ inv_results0).
        apply count_filter_le. intros t Ht. unfold is_started.
        rewrite Ht. apply orb_true_r.
    + rewrite (occurrences_Permutation d _ _ inv_queried0).
      replace (occurrences d domains_to_test)
        with (occurrences d
                (map task_domain (List.filter (fun _ => true) (tasks s)))).
      * now apply count_filter_le.
      * rewrite filter_all; [now rewrite inv_domains0|].
        apply List.Forall_forall. reflexivity.
  - intros Hend.
    assert (Htotal : total_processed (vars s) = length domains_to_test)
      by now apply Hiff.
    destruct Hend as [Hfin Hc].
    assert (Hq : Permutation (queried s) domains_to_test).
    { rewrite inv_queried0, filter_all; [now rewrite inv_domains0|].
      eapply List.Forall_impl; [|exact Hfin].
      intros [d status] E. cbn in E. now subst status. }
    assert (Hr : Permutation (map r_domain (records s)) domains_to_test).
    { rewrite Hc, app_nil_r in inv_results0.
      rewrite inv_results0, filter_all; [now rewrite inv_domains0|].
      eapply List.Forall_impl; [|exact Hfin].
      intros [d status] E. cbn in E. now subst status. }
    split; [exact Hq|]. split; [exact Hr|]. split; [lia|].
    intros Hnd d Hd.
    rewrite (occurrences_Permutation d _ _ Hq),
      (occurrences_Permutation d _ _ Hr).
    unfold occurrences.
    split; exact (proj1 (NoDup_count_occ' string_dec _) Hnd d Hd).
Qed.

Lemma one_record_per_domain_witness :
  exists s : system,
    run ["a.example"; "b.example"] 0
        (initial 1 ["192.168.0.2"] ["a.example"; "b.example"])
        [ Start 1 0; Start 0 0; Settle 1 Answer (1 # 10);
          Wake 0 (1 # 10); Consume (1 # 5);
          Settle 0 Answer (3 # 10); Consume (2 # 5) ] = Some s /\
    map r_domain (records s) = ["b.example"; "a.example"] /\
    Permutation (map r_domain (records s)) ["a.example"; "b.example"].
Proof.
  eexists. split; [vm_compute; reflexivity|].
  split; [reflexivity|].
  apply (one_record_per_domain 1 ["192.168.0.2"]
           ["a.example"; "b.example"] 0
           [ Start 1 0; Start 0 0; Settle 1 Answer (1 # 10);
             Wake 0 (1 # 10); Consume (1 # 5);
             Settle 0 Answer (3 # 10); Consume (2 # 5) ]).
  - vm_compute. reflexivity.
  - split; [|reflexivity].
    repeat constructor.
Defined.

(** C10: when a run has no successful lookup, the summary has no line
    with the overall throughput, whatever the number of failures and the
    duration are. *)
Theorem no_success_no_overall_qps :
  forall (limit : nat) (dns_servers domains_to_test : list string)
         (start_processing_time : Q) (events : list event) (s : system)
         (total_duration : Q),
    run domains_to_test start_processing_time
        (initial limit dns_servers domains_to_test) events = Some s ->
    successful_lookups (vars s) = 0 ->
    exists out : list line,
      print_summary dns_servers domains_to_test (vars s) total_duration
      = inr out /\
      In (FailedLookups (total_processed (vars s))) out /\
      In NoSuccessfulLookups out /\
      forall l, In l out -> is_qps_line l = false.
Proof.
  intros limit dns_servers domains_to_test start_processing_time events s
    total_duration Hrun Hzero.
  destruct (invariant_reachable _ _ _ _ _ _ Hrun).
  assert (Et : timings (vars s) = []).
  { apply length_zero_iff_nil. lia. }
  destruct (print_summary_shape dns_servers domains_to_test (vars s)
              total_duration) as (head & Hhead & _ & Hshape).
  rewrite Et in Hshape.
  exists (head ++ [NoSuccessfulLookups]). split; [exact Hshape|].
  destruct (print_summary_no_timings _ _ _ _ _ Et Hshape) as [Hno Hmetric].
  split; [|split; [exact Hno|]].
  - unfold print_summary in Hshape. rewrite Et in Hshape.
    injection Hshape as Hshape. apply app_inv_tail in Hshape. rewrite <- Hshape.
    replace (total_processed (vars s)) with (failed_lookups (vars s)) by lia.
    destruct (0 <? failed_lookups (vars s))%nat;
      [apply in_or_app; left|]; cbn; auto 10.
  - intros l Hl. specialize (Hmetric l Hl). now destruct l.
Qed.

Lemma no_success_no_overall_qps_witness :
  exists (s : system) (out : list line),
    run ["a.example"; "b.example"] 0
        (initial CONCURRENT_REQUESTS ["192.168.0.2"] ["a.example"; "b.example"])
        [ Start 0 0; Start 1 0;
          Settle 0 (Raises (Exc (ExcType "NXDOMAIN" CatchNXDOMAIN) "no such name"))
            (1 # 10);
          Consume (1 # 5);
          Settle 1 (Raises (Exc (ExcType "LifetimeTimeout" CatchTimeout) "timed out"))
            2;
          Consume 2 ] = Some s /\
    error_counts (vars s) = [("NXDOMAIN", 1); ("Timeout", 1)] /\
    print_summary ["192.168.0.2"] ["a.example"; "b.example"] (vars s) 2
    = inr out /\
    In (FailedLookups 2) out /\
    forall l, In l out -> is_qps_line l = false.
Proof.
  eexists.
  destruct (no_success_no_overall_qps CONCURRENT_REQUESTS ["192.168.0.2"]
              ["a.example"; "b.example"] 0
              [ Start 0 0; Start 1 0;
                Settle 0 (Raises (Exc (ExcType "NXDOMAIN" CatchNXDOMAIN) "no such name"))
                  (1 # 10);
                Consume (1 # 5);
                Settle 1 (Raises (Exc (ExcType "LifetimeTimeout" CatchTimeout) "timed out"))
                  2;
                Consume 2 ] _ 2 ltac:(vm_compute; reflexivity) eq_refl)
    as (out & Hout & Hfailed & _ & Hqps).
  exists out. split; [reflexivity|]. split; [reflexivity|].
  split; [exact Hout|]. split; [exact Hfailed | exact Hqps].
Defined.

(** ** The error breakdown *)

(** [sorted_errors] puts the greater counts first. *)
Lemma insert_sorted_descending (x : string * nat) (l : list (string * nat)) :
  StronglySorted (fun a b => (snd b <= snd a)%nat) l ->
  StronglySorted (fun a b => (snd b <= snd a)%nat)
    (insert_sorted (fun y x => (snd x <? snd y)%nat) x l).
Proof.
  induction 1 as [|y ys Hys IH Hy]; cbn [insert_sorted].
  - repeat constructor.
  - destruct (snd x <? snd y)%nat eqn:E.
    + apply Nat.ltb_lt in E. constructor; [exact IH|].
      apply List.Forall_forall. intros z Hz.
      apply (Permutation_in _ (insert_sorted_Permutation _ x ys)) in Hz.
      destruct Hz as [<- | Hz]; [lia|].
      rewrite List.Forall_forall in Hy. now apply Hy.
    + apply Nat.ltb_ge in E. constructor; [now constructor|].
      constructor; [exact E|].
      eapply List.Forall_impl; [|exact Hy]. cbn. intros z Hz. lia.
Qed.

Lemma sorted_errors_descending (d : dict) :
  StronglySorted (fun a b => (snd b <= snd a)%nat) (sorted_errors d).
Proof.
  unfold sorted_errors. induction d as [|x d IH]; cbn [sorted].
  - constructor.
  - now apply insert_sorted_descending.
Qed.

(** [sorted_errors] is stable: the entries of one count keep the order that
    they have in the dictionary. *)
Lemma insert_sorted_stable (c : nat) (x : string * nat)
    (l : list (string * nat)) :
  List.filter (fun e => (snd e =? c)%nat)
    (insert_sorted (fun y x => (snd x <? snd y)%nat) x l)
  = List.filter (fun e => (snd e =? c)%nat) (x :: l).
Proof.
  induction l as [|y ys IH]; [reflexivity|].
  cbn [insert_sorted]. destruct (snd x <? snd y)%nat eqn:E; [|reflexivity].
  apply Nat.ltb_lt in E.
  cbn [List.filter] in IH |- *. rewrite IH.
  destruct (snd x =? c)%nat eqn:Ex; [|reflexivity].
  apply Nat.eqb_eq in Ex.
  destruct (snd y =? c)%nat eqn:Ey; [|reflexivity].
  apply Nat.eqb_eq in Ey. lia.
Qed.

Lemma sorted_errors_stable (c : nat) (d : dict) :
  List.filter (fun e => (snd e =? c)%nat) (sorted_errors d)
  = List.filter (fun e => (snd e =? c)%nat) d.
Proof.
  unfold sorted_errors. induction d as [|x d IH]; [reflexivity|].
  cbn [sorted]. rewrite insert_sorted_stable.
  cbn [List.filter]. now rewrite IH.
Qed.

(** The keys in the order of their first appearance. *)
Lemma first_seen_In (k : string) (keys : list string) :
  In k (first_seen keys) <-> In k keys.
Proof.
  induction keys as [|a ks IH]; [reflexivity|].
  cbn [first_seen In]. rewrite List.filter_In, IH.
  destruct (String.eqb_spec k a) as [-> | Hne]; cbn.
  - split; auto.
  - split; [intros [? | [? _]]; auto | intros [? | ?]; auto].
Qed.

Lemma first_seen_NoDup (keys : list string) : List.NoDup (first_seen keys).
Proof.
  induction keys as [|a ks IH]; cbn [first_seen]; constructor.
  - rewrite List.filter_In. intros [_ H]. now rewrite String.eqb_refl in H.
  - now apply List.NoDup_filter.
Qed.

Lemma first_seen_snoc (keys : list string) (k : string) :
  first_seen (keys ++ [k])
  = if in_dec string_dec k keys
    then first_seen keys
    else first_seen keys ++ [k].
Proof.
  induction keys as [|a ks IH].
  - reflexivity.
  - cbn [app first_seen]. rewrite IH.
    destruct (in_dec string_dec k ks) as [Hin | Hnin].
    + destruct (in_dec string_dec k (a :: ks)) as [_ | Hn]; [reflexivity|].
      contradiction Hn. now right.
    + rewrite List.filter_app. cbn [List.filter].
      destruct (String.eqb_spec k a) as [-> | Hne]; cbn [negb].
      * destruct (in_dec string_dec a (a :: ks)) as [_ | Hn];
          [now rewrite app_nil_r|].
        contradiction Hn. now left.
      * destruct (in_dec string_dec k (a :: ks)) as [[E | Hin] | _];
          [congruence | contradiction | reflexivity].
Qed.

Lemma occurrences_snoc (k' k : string) (keys : list string) :
  occurrences k' (keys ++ [k])
  = occurrences k' keys + (if string_dec k k' then 1 else 0).
Proof.
  unfold occurrences. rewrite count_occ_app. cbn [count_occ].
  destruct (string_dec k k'); reflexivity.
Qed.

(** Reading and writing a dictionary that is given by its keys and a
    function from the keys to the values. *)
Lemma dict_get_map (f : string -> nat) (keys : list string) (k : string) :
  dict_get (map (fun k' => (k', f k')) keys) k 0
  = if in_dec string_dec k keys then f k else 0.
Proof.
  induction keys as [|a ks IH]; [reflexivity|].
  cbn [map dict_get]. rewrite IH.
  destruct (String.eqb_spec a k) as [-> | Hne].
  - destruct (in_dec string_dec k (k :: ks)) as [_ | Hn]; [reflexivity|].
    contradiction Hn. now left.
  - destruct (in_dec string_dec k ks) as [Hin | Hnin];
      destruct (in_dec string_dec k (a :: ks)) as [[E | Hin'] | Hnin'];
      try reflexivity; try congruence; try contradiction.
    contradiction Hnin'. now right.
Qed.

Lemma dict_set_map_present (f g : string -> nat) (keys : list string)
    (k : string) (v : nat) :
  List.NoDup keys -> In k keys -> g k = v ->
  (forall k', k' <> k -> g k' = f k') ->
  dict_set (map (fun k' => (k', f k')) keys) k v
  = map (fun k' => (k', g k')) keys.
Proof.
  intros Hnd Hin Hg Hfg. induction Hnd as [|a ks Ha Hnd IH]; [contradiction|].
  cbn [map dict_set].
  destruct (String.eqb_spec a k) as [-> | Hne].
  - rewrite Hg. f_equal. apply map_ext_in. intros k' Hk'.
    rewrite Hfg; [reflexivity|]. intros ->. contradiction.
  - rewrite Hfg by exact Hne. f_equal. apply IH.
    destruct Hin as [E | Hin]; [congruence | exact Hin].
Qed.

Lemma dict_set_map_absent (f g : string -> nat) (keys : list string)
    (k : string) (v : nat) :
  ~ In k keys -> g k = v ->
  (forall k', k' <> k -> g k' = f k') ->
  dict_set (map (fun k' => (k', f k')) keys) k v
  = map (fun k' => (k', g k')) (keys ++ [k]).
Proof.
  intros Hnin Hg Hfg. induction keys as [|a ks IH].
  - cbn. now rewrite Hg.
  - cbn [map dict_set app].
    destruct (String.eqb_spec a k) as [-> | Hne].
    + contradiction Hnin. now left.
    + rewrite Hfg by exact Hne. f_equal. apply IH.
      intros Hin. apply Hnin. now right.
Qed.

(** The tally has one entry for each key, in the order in which the keys
    were first seen, and the entry of a key counts its occurrences. *)
Lemma tally_closed_form (keys : list string) :
  tally keys = map (fun k => (k, occurrences k keys)) (first_seen keys).
Proof.
  induction keys as [|k keys IH] using rev_ind; [reflexivity|].
  rewrite tally_snoc, IH, dict_get_map, first_seen_snoc.
  assert (Hv : (if in_dec string_dec k (first_seen keys)
                then occurrences k keys else 0) + 1
               = occurrences k (keys ++ [k])).
  { rewrite occurrences_snoc.
    destruct (string_dec k k) as [_|]; [|congruence].
    destruct (in_dec string_dec k (first_seen keys)) as [_ | Hn];
      [reflexivity|].
    rewrite first_seen_In in Hn. unfold occurrences.
    apply (count_occ_not_In string_dec) in Hn. now rewrite Hn. }
  rewrite Hv.
  assert (Hother : forall k', k' <> k ->
             occurrences k' (keys ++ [k]) = occurrences k' keys).
  { intros k' Hne. rewrite occurrences_snoc.
    destruct (string_dec k k'); [congruence | lia]. }
  destruct (in_dec string_dec k keys) as [Hin | Hnin].
  - apply dict_set_map_present;
      [apply first_seen_NoDup | now apply first_seen_In | reflexivity
      | exact Hother].
  - apply dict_set_map_absent;
      [now rewrite first_seen_In | reflexivity | exact Hother].
Qed.

Lemma filter_count_of_keys (f : string -> nat) (c : nat) (keys : list string) :
  map fst (List.filter (fun e : string * nat => (snd e =? c)%nat)
             (map (fun k => (k, f k)) keys))
  = List.filter (fun k => (f k =? c)%nat) keys.
Proof.
  induction keys as [|k ks IH]; [reflexivity|].
  cbn [map List.filter snd]. destruct (f k =? c)%nat; cbn [map fst]; now rewrite IH.
Qed.

Lemma print_summary_error_entries (dns_servers domains_to_test : list string)
    (st : run_state) (total_duration : Q) (out : list line) :
  print_summary dns_servers domains_to_test st total_duration = inr out ->
  error_entries out
  = if (0 <? failed_lookups st)%nat
    then sorted_errors (error_counts st) else [].
Proof.
  intros Hout.
  destruct (print_summary_shape dns_servers domains_to_test st total_duration)
    as (head & _ & Hhead & Hshape).
  destruct (timings st) as [|t ts].
  - rewrite Hshape in Hout. injection Hout as <-.
    rewrite error_entries_app, Hhead. cbn. apply app_nil_r.
  - destruct Hshape as (average & middle & least & greatest & Hshape).
    rewrite Hshape in Hout.
    destruct (1 <? length (t :: ts))%nat, (Qlt_bool 0 total_duration);
      injection Hout as <-;
      rewrite error_entries_app, Hhead; cbn; apply app_nil_r.
Qed.

(** C7: the entries of the error breakdown that the summary prints are
    in descending order of their counts; there is one entry for each error
    key that the run has observed, with the number of its occurrences; and
    for every count, the keys printed with this count are in the order in
    which they were first observed. *)
Theorem error_breakdown_sorted_stable :
  forall (limit : nat) (dns_servers domains_to_test : list string)
         (start_processing_time : Q) (events : list event) (s : system)
         (total_duration : Q) (out : list line),
    run domains_to_test start_processing_time
        (initial limit dns_servers domains_to_test) events = Some s ->
    print_summary dns_servers domains_to_test (vars s) total_duration
    = inr out ->
    let errors := observed_errors (records s) in
    StronglySorted (fun a b => (snd b <= snd a)%nat) (error_entries out) /\
    Permutation (error_entries out)
      (map (fun k => (k, occurrences k errors)) (first_seen errors)) /\
    forall c : nat,
      map fst (List.filter (fun e => (snd e =? c)%nat) (error_entries out))
      = List.filter (fun k => (occurrences k errors =? c)%nat)
          (first_seen errors).
Proof.
  intros limit dns_servers domains_to_test start_processing_time events s
    total_duration out Hrun Hout errors.
  destruct (invariant_reachable _ _ _ _ _ _ Hrun).
  fold errors in inv_failed0, inv_tally0.
  assert (Hentries : error_entries out = sorted_errors (tally errors)).
  { rewrite (print_summary_error_entries _ _ _ _ _ Hout), inv_tally0.
    destruct (0 <? failed_lookups (vars s))%nat eqn:E; [reflexivity|].
    apply Nat.ltb_ge in E.
    assert (Hnil : errors = []) by (apply length_zero_iff_nil; lia).
    now rewrite Hnil. }
  rewrite Hentries. split; [apply sorted_errors_descending|]. split.
  - unfold sorted_errors. rewrite sorted_Permutation.
    now rewrite tally_closed_form.
  - intros c. rewrite sorted_errors_stable, tally_closed_form.
    apply filter_count_of_keys.
Qed.

Lemma error_breakdown_sorted_stable_witness :
  exists (s : system) (out : list line),
    run ["a.example"; "b.example"; "c.example"; "d.example"] 0
        (initial 2 ["192.168.0.2"]
           ["a.example"; "b.example"; "c.example"; "d.example"])
        [ Start 0 0; Start 1 0; Start 2 0; Start 3 0;
          Settle 1 (Raises (Exc (ExcType "NoAnswer" CatchNoAnswer) "no A record"))
            (1 # 10);
          Wake 3 (1 # 10); Consume (1 # 10);
          Settle 0 (Raises (Exc (ExcType "LifetimeTimeout" CatchTimeout) "timed out"))
            2;
          Wake 2 2; Consume 2;
          Settle 3 (Raises (Exc (ExcType "NXDOMAIN" CatchNXDOMAIN) "no such name"))
            (21 # 10);
          Consume (21 # 10);
          Settle 2 (Raises (Exc (ExcType "LifetimeTimeout" CatchTimeout) "timed out"))
            4;
          Consume 4 ] = Some s /\
    observed_errors (records s) = ["NoAnswer"; "Timeout"; "NXDOMAIN"; "Timeout"] /\
    print_summary ["192.168.0.2"]
      ["a.example"; "b.example"; "c.example"; "d.example"] (vars s) 4
    = inr out /\
    error_entries out = [("Timeout", 2); ("NoAnswer", 1); ("NXDOMAIN", 1)] /\
    StronglySorted (fun a b => (snd b <= snd a)%nat) (error_entries out).
Proof.
  eexists. eexists.
  split; [vm_compute; reflexivity|].
  match goal with
  | |- observed_errors (records ?final) = _ /\ _ => set (s := final)
  end.
  split; [reflexivity|].
  split; [vm_compute; reflexivity|].
  split; [reflexivity|].
  apply (error_breakdown_sorted_stable 2 ["192.168.0.2"]
           ["a.example"; "b.example"; "c.example"; "d.example"] 0
           [ Start 0 0; Start 1 0; Start 2 0; Start 3 0;
             Settle 1 (Raises (Exc (ExcType "NoAnswer" CatchNoAnswer) "no A record"))
               (1 # 10);
             Wake 3 (1 # 10); Consume (1 # 10);
             Settle 0 (Raises (Exc (ExcType "LifetimeTimeout" CatchTimeout) "timed out"))
               2;
             Wake 2 2; Consume 2;
             Settle 3 (Raises (Exc (ExcType "NXDOMAIN" CatchNXDOMAIN) "no such name"))
               (21 # 10);
             Consume (21 # 10);
             Settle 2 (Raises (Exc (ExcType "LifetimeTimeout" CatchTimeout) "timed out"))
               4;
             Consume 4 ] s 4 _).
  - vm_compute. reflexivity.
  - vm_compute. reflexivity.
Defined.

Lemma summary_of_empty_timings_witness :
  exists out : list line,
    print_summary ["192.168.0.2"] ["a.example"; "b.example"]
      (RunState 0 2 [("NXDOMAIN", 1); ("Timeout", 1)] [] 2 []) 3 = inr out /\
    In NoSuccessfulLookups out /\
    forall l, In l out -> is_metric_line l = false.
Proof.
  destruct (summary_of_empty_timings ["192.168.0.2"] ["a.example"; "b.example"]
              (RunState 0 2 [("NXDOMAIN", 1); ("Timeout", 1)] [] 2 []) 3)
    as ((out & Hout & Hempty & _) & _).
  exists out. split; [exact Hout|]. apply Hempty. reflexivity.
Defined.

(** ** No exception leaves [run_test] *)


(** * Properties of the set-up code *)

(** ** Stripping and splitting *)

Section Strings.
Variable isspace : ascii -> bool.

Lemma lstrip_head (s : string) (c : ascii) (rest : string) :
  lstrip isspace s = String c rest -> isspace c = false.
Proof.
  induction s as [|a s IH]; cbn [lstrip]; [discriminate|].
  destruct (isspace a) eqn:Ea; [exact IH|].
  intros E. injection E as <- _. exact Ea.
Qed.

Lemma rstrip_keeps_head (c : ascii) (s : string) :
  isspace c = false -> exists rest, rstrip isspace (String c s) = String c rest.
Proof.
  intros Hc. cbn [rstrip].
  destruct (rstrip isspace s); [rewrite Hc|]; eexists; reflexivity.
Qed.

Lemma rstrip_head (s : string) (c : ascii) (rest : string) :
  rstrip isspace s = String c rest -> exists s', s = String c s'.
Proof.
  destruct s as [|a s]; cbn [rstrip]; [discriminate|].
  destruct (rstrip isspace s); [destruct (isspace a); [discriminate|]|];
    intros E; injection E as <- _; eexists; reflexivity.
Qed.

Lemma rstrip_last (s : string) (l : list ascii) (c : ascii) :
  characters (rstrip isspace s) = l ++ [c] -> isspace c = false.
Proof.
  revert l. induction s as [|a s IH]; intros l; cbn [rstrip].
  - destruct l; discriminate.
  - destruct (rstrip isspace s) as [|b r] eqn:Er.
    + destruct (isspace a) eqn:Ea; cbn [characters].
      * destruct l; discriminate.
      * destruct l as [|? [|? ?]]; try discriminate.
        intros E. injection E as <-. exact Ea.
    + cbn [characters]. destruct l as [|x l]; cbn [app].
      * intros E. injection E as _ E. discriminate.
      * intros E. injection E as _ E. apply (IH l). exact E.
Qed.

Lemma rstrip_fixed (s : string) :
  rstrip isspace (rstrip isspace s) = rstrip isspace s.
Proof.
  induction s as [|a s IH]; [reflexivity|].
  cbn [rstrip]. destruct (rstrip isspace s) as [|b r] eqn:Er.
  - destruct (isspace a) eqn:Ea; [reflexivity|].
    cbn [rstrip]. now rewrite Ea.
  - cbn [rstrip] in IH |- *. fold (rstrip isspace (String b r)). now rewrite IH.
Qed.

Lemma lstrip_no_space_head (s : string) :
  (forall c rest, s = String c rest -> isspace c = false) ->
  lstrip isspace s = s.
Proof.
  destruct s as [|a s]; [reflexivity|].
  intros H. cbn [lstrip]. now rewrite (H a s eq_refl).
Qed.

(** Stripping a stripped string changes nothing. *)
Lemma strip_fixed (s : string) :
  strip isspace (strip isspace s) = strip isspace s.
Proof.
  unfold strip.
  rewrite (lstrip_no_space_head (rstrip isspace (lstrip isspace s))).
  - apply rstrip_fixed.
  - intros c rest E. destruct (rstrip_head _ _ _ E) as (s' & E').
    now apply lstrip_head in E'.
Qed.

Lemma strip_ends (s : string) :
  (forall c rest, strip isspace s = String c rest -> isspace c = false) /\
  (forall l c, characters (strip isspace s) = l ++ [c] -> isspace c = false).
Proof.
  unfold strip. split.
  - intros c rest E. destruct (rstrip_head _ _ _ E) as (s' & E').
    now apply lstrip_head in E'.
  - intros l c. apply rstrip_last.
Qed.

Lemma lstrip_characters (s : string) :
  exists l, characters s = l ++ characters (lstrip isspace s) /\
            Forall (fun c => isspace c = true) l.
Proof.
  induction s as [|a s (l & El & Hl)]; cbn [lstrip].
  - exists []. now split.
  - destruct (isspace a) eqn:Ea.
    + exists (a :: l). cbn [characters app]. rewrite El. split; [reflexivity|].
      now constructor.
    + exists []. now split.
Qed.

Lemma rstrip_characters (s : string) :
  exists l, characters s = characters (rstrip isspace s) ++ l /\
            Forall (fun c => isspace c = true) l.
Proof.
  induction s as [|a s (l & El & Hl)]; cbn [rstrip].
  - exists []. now split.
  - destruct (rstrip isspace s) as [|b r] eqn:Er.
    + cbn [characters app] in El. destruct (isspace a) eqn:Ea.
      * exists (a :: l). cbn [characters app]. rewrite El. split; [reflexivity|].
        now constructor.
      * exists l. cbn [characters app]. now rewrite El.
    + exists l. cbn [characters app] in El |- *. now rewrite El.
Qed.

(** A string is what is stripped from it, with whitespace around it. *)
Lemma strip_characters (s : string) :
  exists before after,
    characters s = before ++ characters (strip isspace s) ++ after /\
    Forall (fun c => isspace c = true) before /\
    Forall (fun c => isspace c = true) after.
Proof.
  destruct (lstrip_characters s) as (before & Eb & Hb).
  destruct (rstrip_characters (lstrip isspace s)) as (after & Ea & Ha).
  exists before, after. unfold strip. rewrite Eb, Ea. now repeat split.
Qed.

Lemma characters_nil (s : string) : characters s = [] <-> s = "".
Proof. destruct s; cbn; split; congruence. Qed.

(** Only a string of whitespace is stripped to the empty string. *)
Lemma strip_empty_iff (s : string) :
  strip isspace s = "" <-> Forall (fun c => isspace c = true) (characters s).
Proof.
  destruct (strip_characters s) as (before & after & E & Hb & Ha).
  split.
  - intros Hs. rewrite E, Hs. cbn [characters app].
    apply Forall_app. now split.
  - intros Hall. rewrite E in Hall.
    apply Forall_app in Hall as [_ Hall]. apply Forall_app in Hall as [Hmid _].
    destruct (strip isspace s) as [|c rest] eqn:Es; [reflexivity|].
    destruct (strip_ends s) as [Hhead _]. rewrite Es in Hhead.
    specialize (Hhead c rest eq_refl).
    inversion Hmid; subst. congruence.
Qed.

End Strings.

Lemma split_not_nil (sep : ascii) (s : string) : split sep s <> [].
Proof.
  destruct s as [|c s]; cbn [split]; [discriminate|].
  destruct (Ascii.eqb c sep); [discriminate|].
  destruct (split sep s); discriminate.
Qed.

(** No piece holds the separator. *)
Lemma split_no_separator (sep : ascii) (s piece : string) :
  In piece (split sep s) -> ~ In sep (characters piece).
Proof.
  revert piece. induction s as [|c s IH]; intros piece; cbn [split].
  - intros [<- | []]. intros [].
  - destruct (Ascii.eqb_spec c sep) as [-> | Hne].
    + intros [<- | Hin]; [intros [] | now apply IH].
    + destruct (split sep s) as [|p ps].
      * intros [<- | []]. cbn. intros [E | []]. congruence.
      * intros [<- | Hin].
        -- cbn [characters]. intros [E | Hin]; [congruence|].
           apply (IH p); [now left | exact Hin].
        -- apply IH. now right.
Qed.

(** The characters of the pieces are the characters of the string other
    than the separators. *)
Lemma split_characters (Q : ascii -> Prop) (sep : ascii) (s : string) :
  (forall piece, In piece (split sep s) -> Forall Q (characters piece)) <->
  Forall (fun c => c = sep \/ Q c) (characters s).
Proof.
  induction s as [|c s IH]; cbn [split characters].
  - split; [constructor|]. intros _ piece [<- | []]. constructor.
  - destruct (Ascii.eqb_spec c sep) as [-> | Hne].
    + split.
      * intros H. constructor; [now left|]. apply IH.
        intros piece Hin. apply H. now right.
      * intros H piece [<- | Hin]; [constructor|].
        inversion H; subst. apply IH; assumption.
    + pose proof (split_not_nil sep s) as Hnil.
      destruct (split sep s) as [|p ps]; [congruence|]. split.
      * intros H. pose proof (H _ (or_introl eq_refl)) as Hcp.
        cbn [characters] in Hcp. inversion Hcp; subst.
        constructor; [now right|]. apply IH.
        intros piece [<- | Hin]; [assumption|]. apply H. now right.
      * intros H piece Hin. inversion H as [|? ? [E | Hc] Hs]; subst;
          [congruence|].
        pose proof (proj2 IH Hs) as Hpieces.
        destruct Hin as [<- | Hin].
        -- cbn [characters]. constructor; [exact Hc|].
           apply Hpieces. now left.
        -- apply Hpieces. now right.
Qed.

Lemma filter_nil_iff {A : Type} (p : A -> bool) (l : list A) :
  List.filter p l = [] <-> forall x, In x l -> p x = false.
Proof.
  induction l as [|a l IH]; cbn [List.filter].
  - split; [intros _ x [] | reflexivity].
  - destruct (p a) eqn:Ea; split.
    + discriminate.
    + intros H. specialize (H a (or_introl eq_refl)). congruence.
    + intros E x [<- | Hin]; [exact Ea | now apply IH].
    + intros H. apply IH. intros x Hin. apply H. now right.
Qed.

(** ** [get_dns_servers_from_user] *)

(** Every server that [get_dns_servers_from_user] makes of a non-empty
    input is a non-empty string without whitespace at its ends and without
    a comma; an empty input gives the default server alone. *)
Theorem dns_servers_well_formed :
  forall (isspace : ascii -> bool) (dns_input : string),
    (dns_input = "" ->
     get_dns_servers_from_user isspace dns_input = [DEFAULT_DNS_SERVER]) /\
    (dns_input <> "" ->
     forall server : string,
       In server (get_dns_servers_from_user isspace dns_input) ->
       server <> "" /\
       strip isspace server = server /\
       (forall c rest, server = String c rest -> isspace c = false) /\
       (forall l c, characters server = l ++ [c] -> isspace c = false) /\
       ~ In ","%char (characters server)).
Proof.
  intros isspace dns_input. split; [now intros ->|].
  intros Hne server Hin. unfold get_dns_servers_from_user in Hin.
  destruct (String.eqb_spec dns_input ""); [contradiction|].
  apply in_map_iff in Hin as (piece & <- & Hin).
  apply List.filter_In in Hin as [Hpiece Hkeep].
  destruct (strip_ends isspace piece) as [Hhead Hlast].
  split; [|split; [|split; [|split]]].
  - intros E. rewrite E in Hkeep. discriminate.
  - apply strip_fixed.
  - exact Hhead.
  - exact Hlast.
  - intros Hcomma. apply (split_no_separator _ _ _ Hpiece).
    destruct (strip_characters isspace piece) as (before & after & E & _ & _).
    rewrite E. apply in_or_app. right. apply in_or_app. now left.
Qed.

Lemma dns_servers_well_formed_witness :
  get_dns_servers_from_user python_isspace " 8.8.8.8, ,1.1.1.1 ,"
  = ["8.8.8.8"; "1.1.1.1"] /\
  "1.1.1.1" <> "" /\
  strip python_isspace "1.1.1.1" = "1.1.1.1" /\
  ~ In ","%char (characters "1.1.1.1").
Proof.
  split; [reflexivity|].
  destruct (dns_servers_well_formed python_isspace " 8.8.8.8, ,1.1.1.1 ,")
    as [_ H].
  destruct (H ltac:(discriminate) "1.1.1.1" ltac:(right; left; reflexivity))
    as (Hne & Hfixed & _ & _ & Hcomma).
  now repeat split.
Defined.

Lemma get_dns_servers_nil (isspace : ascii -> bool) (dns_input : string) :
  get_dns_servers_from_user isspace dns_input = [] <->
  dns_input <> "" /\
  Forall (fun c => c = ","%char \/ isspace c = true) (characters dns_input).
Proof.
  unfold get_dns_servers_from_user.
  destruct (String.eqb_spec dns_input "") as [-> | Hne].
  - split; [discriminate | intros [H _]; congruence].
  - rewrite <- split_characters. split.
    + intros E. split; [exact Hne|]. intros piece Hpiece.
      apply map_eq_nil in E.
      pose proof (proj1 (filter_nil_iff _ _) E piece Hpiece) as Hs.
      apply negb_false_iff, String.eqb_eq in Hs.
      now apply strip_empty_iff.
    + intros [_ H]. 
      replace (List.filter _ (split ","%char dns_input)) with (@nil string);
        [reflexivity|].
      symmetry. apply filter_nil_iff. intros piece Hpiece.
      apply negb_false_iff, String.eqb_eq, strip_empty_iff. now apply H.
Qed.

(** [get_dns_servers_from_user] returns no server at all exactly when the
    input is not empty and has nothing but commas and whitespace. *)
Theorem dns_servers_empty_iff :
  forall (isspace : ascii -> bool) (dns_input : string),
    get_dns_servers_from_user isspace dns_input = [] <->
    dns_input <> "" /\
    Forall (fun c => c = ","%char \/ isspace c = true) (characters dns_input).
Proof. exact get_dns_servers_nil. Qed.

Lemma dns_servers_empty_iff_witness :
  get_dns_servers_from_user python_isspace " , ," = [].
Proof.
  apply (dns_servers_empty_iff python_isspace " , ,").
  split; [discriminate|]. cbn [characters].
  repeat (apply List.Forall_cons;
          [first [left; reflexivity | right; reflexivity]|]).
  apply List.Forall_nil.
Defined.

(** ** [load_domains_from_csv] *)

Section Loading.
Variable isspace : ascii -> bool.

Lemma candidates_cons (row : list string) (rows : list (list string)) :
  candidates isspace (row :: rows)
  = (if (2 <=? length row)%nat && negb (strip isspace (nth 1 row "") =? "")
     then [strip isspace (nth 1 row "")] else [])
    ++ candidates isspace rows.
Proof.
  unfold candidates. cbn [List.filter].
  destruct (2 <=? length row)%nat; cbn [andb map List.filter]; [|reflexivity].
  now destruct (negb (strip isspace (nth 1 row "") =? "")).
Qed.

(** The loop collects the candidates of the rows until it has
    [num_domains] of them; it fails only when the reader fails. *)
Lemma read_rows_domains (csv_filepath : string) (num_domains : Z)
    (rows : list (list string)) (failure : option string) (i : nat)
    (domains : list string) (out : list message) :
  (Z.of_nat (length domains) <= Z.max num_domains 0)%Z ->
  match fst (read_rows isspace csv_filepath num_domains rows failure i
               domains out) with
  | inr loaded =>
      loaded = domains
               ++ firstn (Z.to_nat num_domains - length domains)
                    (candidates isspace rows)
  | inl e => failure = Some e
  end.
Proof.
  revert i domains out.
  induction rows as [|row rows IH]; intros i domains out Hlen; cbn [read_rows].
  - destruct failure; cbn [fst]; [reflexivity|].
    unfold candidates. cbn. rewrite firstn_nil. now rewrite app_nil_r.
  - destruct (num_domains <=? Z.of_nat (length domains))%Z eqn:Ebreak.
    + apply Z.leb_le in Ebreak. cbn [fst].
      replace (Z.to_nat num_domains - length domains)%nat with 0%nat by lia.
      cbn [firstn]. now rewrite app_nil_r.
    + apply Z.leb_gt in Ebreak. rewrite candidates_cons.
      assert (Hroom : (Z.to_nat num_domains - length domains
                       = S (Z.to_nat num_domains - length domains - 1))%nat)
        by lia.
      destruct (2 <=? length row)%nat; cbn [andb].
      * destruct (negb (strip isspace (nth 1 row "") =? "")).
        -- specialize (IH (S i) (domains ++ [strip isspace (nth 1 row "")]) out).
           rewrite length_app in IH. cbn [length] in IH.
           specialize (IH ltac:(lia)).
           destruct (fst (read_rows _ _ _ _ _ _ _ _)); [exact IH|].
           rewrite IH, Hroom. cbn [app firstn]. rewrite <- app_assoc.
           cbn [app]. do 3 f_equal. lia.
        -- now apply IH.
      * destruct (i <? 5)%nat; now apply IH.
Qed.

Lemma read_rows_no_failure (csv_filepath : string) (num_domains : Z)
    (rows : list (list string)) (i : nat) (domains : list string)
    (out : list message) :
  exists loaded,
    fst (read_rows isspace csv_filepath num_domains rows None i domains out)
    = inr loaded.
Proof.
  revert i domains out.
  induction rows as [|row rows IH]; intros i domains out; cbn [read_rows].
  - now eexists.
  - destruct (num_domains <=? Z.of_nat (length domains))%Z; [now eexists|].
    destruct (2 <=? length row)%nat.
    + destruct (negb (strip isspace (nth 1 row "") =? "")); apply IH.
    + destruct (i <? 5)%nat; apply IH.
Qed.

Lemma candidates_clean (rows : list (list string)) (d : string) :
  In d (candidates isspace rows) ->
  d <> "" /\ strip isspace d = d /\
  exists row, In row rows /\ (2 <= length row)%nat /\
              d = strip isspace (nth 1 row "").
Proof.
  unfold candidates. intros Hin.
  apply List.filter_In in Hin as [Hin Hne].
  apply in_map_iff in Hin as (row & <- & Hrow).
  apply List.filter_In in Hrow as [Hrow Hlen]. apply Nat.leb_le in Hlen.
  split; [|split].
  - intros E. rewrite E in Hne. discriminate.
  - apply strip_fixed.
  - now exists row.
Qed.

End Loading.

Lemma load_domains_prefix (isspace : ascii -> bool) (file : csv_file)
    (csv_filepath : string) (num_domains : Z) :
  match fst (load_domains_from_csv isspace file csv_filepath num_domains) with
  | Some domains =>
      domains <> [] /\
      exists rows failure,
        file = Reader rows failure /\
        domains = firstn (Z.to_nat num_domains) (candidates isspace rows)
  | None =>
      forall rows,
        file = Reader rows None ->
        firstn (Z.to_nat num_domains) (candidates isspace rows) = []
  end.
Proof.
  destruct file as [|e|rows failure]; cbn [load_domains_from_csv fst];
    try discriminate.
  pose proof (read_rows_domains isspace csv_filepath num_domains rows failure
                0 [] [] ltac:(cbn; lia)) as Hloop.
  destruct (read_rows isspace csv_filepath num_domains rows failure 0 [] [])
    as [[e | loaded] out] eqn:Eloop; cbn [fst] in Hloop |- *.
  - intros rows' E. injection E as <- ->. discriminate.
  - cbn [app length] in Hloop. rewrite Nat.sub_0_r in Hloop.
    destruct loaded as [|d ds]; cbn [fst].
    + intros rows' E. injection E as <- _. now symmetry.
    + split; [discriminate|]. now exists rows, failure.
Qed.



(** What [load_domains_from_csv] returns has at least one and at most
    [num_domains] domains, each of them a non-empty stripped second field of
    a row with at least two fields. *)
Theorem loaded_domains_bounded_and_clean :
  forall (isspace : ascii -> bool) (file : csv_file) (csv_filepath : string)
         (num_domains : Z) (domains : list string),
    fst (load_domains_from_csv isspace file csv_filepath num_domains)
    = Some domains ->
    (1 <= Z.of_nat (length domains) <= num_domains)%Z /\
    forall d : string,
      In d domains ->
      d <> "" /\ strip isspace d = d /\
      exists rows failure row,
        file = Reader rows failure /\ In row rows /\
        (2 <= length row)%nat /\ d = strip isspace (nth 1 row "").
Proof.
  intros isspace file csv_filepath num_domains domains Hload.
  pose proof (load_domains_prefix isspace file csv_filepath num_domains) as H.
  rewrite Hload in H. destruct H as (Hne & rows & failure & -> & E).
  split.
  - destruct domains as [|d ds]; [congruence|].
    pose proof (firstn_le_length (Z.to_nat num_domains)
                  (candidates isspace rows)) as Hle.
    assert (Hlen : (length (d :: ds) <= Z.to_nat num_domains)%nat).
    { rewrite E, length_firstn. lia. }
    cbn [length] in *. lia.
  - intros d Hd. rewrite E in Hd.
    assert (Hc : In d (candidates isspace rows)).
    { rewrite <- (firstn_skipn (Z.to_nat num_domains)).
      apply in_or_app. now left. }
    destruct (candidates_clean isspace rows d Hc)
      as (Hd1 & Hd2 & row & Hrow & Hlen & Hd3).
    split; [exact Hd1|]. split; [exact Hd2|].
    now exists rows, failure, row.
Qed.

Lemma loaded_domains_bounded_and_clean_witness :
  (1 <= Z.of_nat (length ["google.com"; "b.org"]) <= 2)%Z.
Proof.
  apply (loaded_domains_bounded_and_clean python_isspace
           (Reader [["1"; "google.com"]; ["bad"]; ["2"; " "]; ["3"; " b.org "];
                    ["4"; "c.org"]] None)
           "top-1m.csv" 2 ["google.com"; "b.org"]).
  reflexivity.
Defined.

Lemma read_rows_warnings (isspace : ascii -> bool) (csv_filepath : string)
    (num_domains : Z) (rows : list (list string)) (failure : option string)
    (i : nat) (domains : list string) (out : list message) :
  exists warnings : list message,
    snd (read_rows isspace csv_filepath num_domains rows failure i domains out)
    = out ++ warnings /\
    (length warnings <= 5 - i)%nat /\
    forall m, In m warnings ->
      exists k row,
        m = WarningMalformedRow k csv_filepath row /\
        (i < k <= 5)%nat /\
        nth_error rows (k - 1 - i) = Some row /\
        (length row < 2)%nat.
Proof.
  revert i domains out.
  induction rows as [|row rows IH]; intros i domains out; cbn [read_rows].
  - exists []. destruct failure; cbn [snd]; rewrite app_nil_r;
      (split; [reflexivity|]); (split; [cbn; lia|]); intros m [].
  - assert (Hshift : forall W : list message,
               (length W <= 5 - S i)%nat ->
               (forall m, In m W ->
                  exists k row',
                    m = WarningMalformedRow k csv_filepath row' /\
                    (S i < k <= 5)%nat /\
                    nth_error rows (k - 1 - S i) = Some row' /\
                    (length row' < 2)%nat) ->
               (length W <= 5 - i)%nat /\
               forall m, In m W ->
                 exists k row',
                   m = WarningMalformedRow k csv_filepath row' /\
                   (i < k <= 5)%nat /\
                   nth_error (row :: rows) (k - 1 - i) = Some row' /\
                   (length row' < 2)%nat).
    { intros W Hlen HW. split; [lia|].
      intros m Hm. destruct (HW m Hm) as (k & row' & -> & Hk & Hnth & Hrow).
      exists k, row'. split; [reflexivity|]. split; [lia|]. split; [|exact Hrow].
      replace (k - 1 - i)%nat with (S (k - 1 - S i)) by lia. exact Hnth. }
    destruct (num_domains <=? Z.of_nat (length domains))%Z.
    { exists []. cbn [snd]. rewrite app_nil_r.
      split; [reflexivity|]. split; [cbn; lia|]. intros m []. }
    destruct (2 <=? length row)%nat eqn:Erow.
    + destruct (negb (strip isspace (nth 1 row "") =? "")).
      * destruct (IH (S i) (domains ++ [strip isspace (nth 1 row "")]) out)
          as (W & EW & Hlen & HW).
        exists W. split; [exact EW|]. exact (Hshift W Hlen HW).
      * destruct (IH (S i) domains out) as (W & EW & Hlen & HW).
        exists W. split; [exact EW|]. exact (Hshift W Hlen HW).
    + apply Nat.leb_gt in Erow.
      destruct (i <? 5)%nat eqn:Ei.
      * apply Nat.ltb_lt in Ei.
        destruct (IH (S i) domains
                    (out ++ [WarningMalformedRow (i + 1) csv_filepath row]))
          as (W & EW & Hlen & HW).
        exists (WarningMalformedRow (i + 1) csv_filepath row :: W).
        split; [now rewrite EW, <- app_assoc|].
        destruct (Hshift W Hlen HW) as [_ HW'].
        split; [cbn [length]; lia|].
        intros m [<- | Hm]; [|now apply HW'].
        exists (i + 1)%nat, row. split; [reflexivity|]. split; [lia|].
        split; [|exact Erow].
        replace (i + 1 - 1 - i)%nat with 0%nat by lia. reflexivity.
      * destruct (IH (S i) domains out) as (W & EW & Hlen & HW).
        exists W. split; [exact EW|]. exact (Hshift W Hlen HW).
Qed.

(** [load_domains_from_csv] warns about at most five rows, each of them
    one of the first five rows of the file and short of a second field, and
    after the warnings it prints exactly one line about the outcome. *)
Theorem malformed_row_warnings_limited :
  forall (isspace : ascii -> bool) (file : csv_file) (csv_filepath : string)
         (num_domains : Z),
    exists (warnings : list message) (final : message),
      snd (load_domains_from_csv isspace file csv_filepath num_domains)
      = warnings ++ [final] /\
      (length warnings <= 5)%nat /\
      (forall m, In m warnings ->
         exists k row rows failure,
           m = WarningMalformedRow k csv_filepath row /\
           (1 <= k <= 5)%nat /\
           file = Reader rows failure /\
           nth_error rows (k - 1) = Some row /\
           (length row < 2)%nat) /\
      match final with
      | ErrorNoDomainsLoaded _ | InfoLoaded _ _ | ErrorFileNotFound _
      | ErrorCouldNotRead _ _ => True
      | _ => False
      end.
Proof.
  intros isspace file csv_filepath num_domains.
  destruct file as [|e|rows failure]; cbn [load_domains_from_csv].
  - exists [], (ErrorFileNotFound csv_filepath). cbn.
    split; [reflexivity|]. split; [lia|]. split; [intros m []|exact I].
  - exists [], (ErrorCouldNotRead csv_filepath e). cbn.
    split; [reflexivity|]. split; [lia|]. split; [intros m []|exact I].
  - destruct (read_rows_warnings isspace csv_filepath num_domains rows failure
                0 [] []) as (W & EW & Hlen & HW).
    assert (HW' : forall m, In m W ->
              exists k row rows' failure',
                m = WarningMalformedRow k csv_filepath row /\
                (1 <= k <= 5)%nat /\
                Reader rows failure = Reader rows' failure' /\
                nth_error rows' (k - 1) = Some row /\
                (length row < 2)%nat).
    { intros m Hm. destruct (HW m Hm) as (k & row & -> & Hk & Hnth & Hrow).
      exists k, row, rows, failure. rewrite Nat.sub_0_r in Hnth.
      repeat split; try lia; assumption. }
    destruct (read_rows isspace csv_filepath num_domains rows failure 0 [] [])
      as [[e | [|d ds]] out]; cbn [snd app] in EW; subst out;
      eexists W, _; cbn [snd];
      (split; [reflexivity|]); (split; [lia|]); (split; [exact HW' | exact I]).
Qed.

Lemma malformed_row_warnings_limited_witness :
  snd (load_domains_from_csv python_isspace
         (Reader [["rank"]; []; ["1"; "a.org"]; ["x"]; ["y"]; ["z"]; ["w"]] None)
         "top-1m.csv" 5)
  = [ WarningMalformedRow 1 "top-1m.csv" ["rank"];
      WarningMalformedRow 2 "top-1m.csv" [];
      WarningMalformedRow 4 "top-1m.csv" ["x"];
      WarningMalformedRow 5 "top-1m.csv" ["y"];
      InfoLoaded 1 "top-1m.csv" ] /\
  exists (warnings : list message) (final : message),
    snd (load_domains_from_csv python_isspace
           (Reader [["rank"]; []; ["1"; "a.org"]; ["x"]; ["y"]; ["z"]; ["w"]] None)
           "top-1m.csv" 5) = warnings ++ [final] /\
    (length warnings <= 5)%nat.
Proof.
  split; [reflexivity|].
  destruct (malformed_row_warnings_limited python_isspace
              (Reader [["rank"]; []; ["1"; "a.org"]; ["x"]; ["y"]; ["z"]; ["w"]] None)
              "top-1m.csv" 5) as (W & final & E & Hlen & _).
  now exists W, final.
Defined.

(** ** [get_domains_for_test] *)

Section Domains.
Variable isspace : ascii -> bool.
Variable int : string -> option Z.

Lemma num_domains_to_use_positive (num_domains_to_use_str : string) :
  (0 < fst (num_domains_to_use int num_domains_to_use_str))%Z.
Proof.
  unfold num_domains_to_use.
  destruct (if num_domains_to_use_str =? ""
            then Some DEFAULT_DOMAINS_TO_TEST_COUNT
            else int num_domains_to_use_str) as [n|]; [|reflexivity].
  destruct (n <=? 0)%Z eqn:E; [reflexivity|].
  apply Z.leb_gt in E. exact E.
Qed.

Lemma fallback_list_prefix (n : Z) :
  (0 < n)%Z ->
  fallback_list n = firstn (Z.to_nat (Z.min n 20)) FALLBACK_DOMAINS /\
  fallback_list n <> [] /\
  (Z.of_nat (length (fallback_list n)) <= n)%Z.
Proof.
  intros Hn. unfold fallback_list, slice_to.
  change (Z.of_nat (length FALLBACK_DOMAINS)) with 20%Z.
  destruct (0 <=? Z.min n 20)%Z eqn:E; [|apply Z.leb_gt in E; lia].
  split; [reflexivity|]. split.
  - assert (Hk : exists k, Z.to_nat (Z.min n 20) = S k)
      by (exists (Z.to_nat (Z.min n 20) - 1)%nat; lia).
    destruct Hk as (k & ->). discriminate.
  - rewrite length_firstn.
    change (length FALLBACK_DOMAINS) with 20%nat. lia.
Qed.

Lemma load_some_not_nil (file : csv_file) (csv_filepath : string)
    (num_domains : Z) (domains : list string) :
  fst (load_domains_from_csv isspace file csv_filepath num_domains)
  = Some domains ->
  domains <> [] /\ (Z.of_nat (length domains) <= num_domains)%Z.
Proof.
  destruct file as [|e|rows failure]; cbn [load_domains_from_csv fst];
    try discriminate.
  pose proof (read_rows_domains isspace csv_filepath num_domains rows failure
                0 [] [] ltac:(cbn; lia)) as Hloop.
  destruct (read_rows isspace csv_filepath num_domains rows failure 0 [] [])
    as [[e | [|d ds]] out]; cbn [fst] in Hloop |- *; try discriminate.
  intros E. injection E as <-. split; [discriminate|].
  cbn [app length] in Hloop. rewrite Nat.sub_0_r in Hloop.
  assert (Hlen : (length (d :: ds) <= Z.to_nat num_domains)%nat).
  { rewrite Hloop, length_firstn. lia. }
  cbn [length] in *. lia.
Qed.

(** The list comes from the CSV file when there is a path and the file
    gives domains, and from the fallback list otherwise. *)
Lemma get_domains_for_test_cases (csv_path : option string) (file : csv_file)
    (num_domains_to_use_str : string) :
  let n := fst (num_domains_to_use int num_domains_to_use_str) in
  let path := match csv_path with Some p => p | None => "" end in
  let domains :=
    fst (get_domains_for_test isspace int csv_path file num_domains_to_use_str) in
  (truthy csv_path = true /\
   fst (load_domains_from_csv isspace file path n) = Some domains) \/
  ((truthy csv_path = false \/
    fst (load_domains_from_csv isspace file path n) = None) /\
   domains = firstn (Z.to_nat (Z.min n 20)) FALLBACK_DOMAINS).
Proof.
  intros n path domains. subst domains. unfold get_domains_for_test.
  pose proof (num_domains_to_use_positive num_domains_to_use_str) as Hn.
  fold n in Hn.
  destruct (num_domains_to_use int num_domains_to_use_str) as [n' out] eqn:En.
  cbn [fst] in n. subst n.
  destruct (fallback_list_prefix n' Hn) as (Hfb & Hfbne & _).
  destruct (truthy csv_path) eqn:Ep.
  - fold path.
    pose proof (load_some_not_nil file path n') as Hsome.
    destruct (load_domains_from_csv isspace file path n')
      as [[[|d ds]|] printed]; cbn [fst] in Hsome |- *.
    + destruct (Hsome [] eq_refl) as [Hne _]. congruence.
    + left. now split.
    + right. split; [now right|].
      destruct (fallback_list n') eqn:Ef; [congruence|]. cbn [fst].
      now rewrite <- Hfb.
  - right. split; [now left|].
    destruct (fallback_list n') eqn:Ef; [congruence|]. cbn [fst].
    now rewrite <- Hfb.
Qed.

End Domains.

(** [get_domains_for_test] never returns an empty list and never more
    domains than the number it settled on, which is positive whatever the
    user typed. *)
Theorem domains_for_test_never_empty :
  forall (isspace : ascii -> bool) (int : string -> option Z)
         (csv_path : option string) (file : csv_file)
         (num_domains_to_use_str : string),
    let n := fst (num_domains_to_use int num_domains_to_use_str) in
    let domains :=
      fst (get_domains_for_test isspace int csv_path file
             num_domains_to_use_str) in
    (0 < n)%Z /\ domains <> [] /\ (Z.of_nat (length domains) <= n)%Z.
Proof.
  intros isspace int csv_path file num_domains_to_use_str n domains.
  pose proof (num_domains_to_use_positive int num_domains_to_use_str) as Hn.
  fold n in Hn. split; [exact Hn|].
  destruct (get_domains_for_test_cases isspace int csv_path file
              num_domains_to_use_str) as [[_ Hload] | [_ Hfb]];
    fold n domains in Hload || fold n domains in Hfb.
  - now apply load_some_not_nil in Hload.
  - destruct (fallback_list_prefix n Hn) as (E & Hne & Hlen).
    rewrite Hfb, <- E. now split.
Qed.

(** The list that [get_domains_for_test] returns is the list loaded from
    the CSV file when there is a path and the file gives domains, and
    otherwise the first [min(n, 20)] fallback domains; so the two domains of
    lines 145-147 are never what it returns for want of a list. *)
Theorem domains_for_test_from_csv_or_fallback :
  forall (isspace : ascii -> bool) (int : string -> option Z)
         (csv_path : option string) (file : csv_file)
         (num_domains_to_use_str : string),
    let n := fst (num_domains_to_use int num_domains_to_use_str) in
    let path := match csv_path with Some p => p | None => "" end in
    let domains :=
      fst (get_domains_for_test isspace int csv_path file
             num_domains_to_use_str) in
    ((truthy csv_path = true /\
      fst (load_domains_from_csv isspace file path n) = Some domains) \/
     ((truthy csv_path = false \/
       fst (load_domains_from_csv isspace file path n) = None) /\
      domains = firstn (Z.to_nat (Z.min n 20)) FALLBACK_DOMAINS)) /\
    ~ In CriticalNoDomainsLoaded
        (snd (get_domains_for_test isspace int csv_path file
                num_domains_to_use_str)).
Proof.
  intros isspace int csv_path file num_domains_to_use_str n path domains.
  split; [apply get_domains_for_test_cases|].
  pose proof (num_domains_to_use_positive int num_domains_to_use_str) as Hn.
  fold n in Hn.
  assert (Hcount : ~ In CriticalNoDomainsLoaded
                       (snd (num_domains_to_use int num_domains_to_use_str))).
  { unfold num_domains_to_use.
    destruct (if num_domains_to_use_str =? "" then _ else _) as [k|];
      [destruct (k <=? 0)%Z|]; cbn; intuition discriminate. }
  assert (Hload : ~ In CriticalNoDomainsLoaded
                      (snd (load_domains_from_csv isspace file path n))).
  { destruct file as [|e|rows failure]; cbn [load_domains_from_csv snd].
    - cbn. intuition discriminate.
    - cbn. intuition discriminate.
    - destruct (read_rows_warnings isspace path n rows failure 0 [] [])
        as (W & EW & _ & HW).
      destruct (read_rows isspace path n rows failure 0 [] [])
        as [[e | [|d ds]] out]; cbn [snd app] in EW |- *; subst out;
        intros Hin; apply in_app_or in Hin as [Hin | [Hin | []]];
        try discriminate;
        destruct (HW _ Hin) as (k & row & E & _); discriminate. }
  unfold get_domains_for_test. subst n.
  destruct (num_domains_to_use int num_domains_to_use_str) as [n out] eqn:En.
  cbn [fst snd] in *.
  destruct (fallback_list_prefix n Hn) as (_ & Hfbne & _).
  destruct (truthy csv_path).
  - fold path.
    pose proof (load_some_not_nil isspace file path n) as Hsome.
    destruct (load_domains_from_csv isspace file path n)
      as [[[|d ds]|] printed]; cbn [fst snd] in *.
    + destruct (Hsome [] eq_refl) as [Hne _]. congruence.
    + intros Hin. apply in_app_or in Hin as [Hin | Hin]; [contradiction|].
      apply in_app_or in Hin as [Hin | Hin]; [contradiction|].
      destruct (_ <? _)%Z; [destruct Hin as [Hin | []]; discriminate|].
      exact Hin.
    + destruct (fallback_list n); [congruence|]. cbn [snd].
      intros Hin. apply in_app_or in Hin as [Hin | Hin]; [contradiction|].
      apply in_app_or in Hin as [Hin | [Hin | []]];
        [contradiction | discriminate].
  - destruct (fallback_list n); [congruence|]. cbn [snd].
    intros Hin. apply in_app_or in Hin as [Hin | [Hin | []]];
      [contradiction | discriminate].
Qed.

Lemma domains_for_test_never_empty_witness :
  fst (get_domains_for_test python_isspace (fun _ => Some (-3)%Z)
         (Some "top-1m.csv") (Reader [["1"]; ["2"; "  "]] None) "-3")
  = FALLBACK_DOMAINS /\
  fst (get_domains_for_test python_isspace (fun _ => Some (-3)%Z)
         (Some "top-1m.csv") (Reader [["1"]; ["2"; "  "]] None) "-3") <> [].
Proof.
  split; [reflexivity|].
  apply (domains_for_test_never_empty python_isspace (fun _ => Some (-3)%Z)
           (Some "top-1m.csv") (Reader [["1"]; ["2"; "  "]] None) "-3").
Defined.

Lemma domains_for_test_from_csv_or_fallback_witness :
  fst (get_domains_for_test python_isspace (fun _ => None)
         None FileNotFound "many") = FALLBACK_DOMAINS /\
  ~ In CriticalNoDomainsLoaded
      (snd (get_domains_for_test python_isspace (fun _ => None)
              None FileNotFound "many")).
Proof.
  split; [reflexivity|].
  apply (domains_for_test_from_csv_or_fallback python_isspace (fun _ => None)
           None FileNotFound "many").
Defined.

(** ** The main block *)

Lemma insert_swapped (l : list string) (j : nat) (a b : string) :
  l !! j = Some b -> Permutation (b :: <[j := a]> l) (a :: l).
Proof.
  revert j. induction l as [|c l IH]; intros j Hj; [discriminate|].
  destruct j as [|j]; cbn in Hj |- *.
  - injection Hj as ->. apply perm_swap.
  - rewrite perm_swap. rewrite (IH j Hj). apply perm_swap.
Qed.

Lemma swap_Permutation (x : list string) (i j : nat) :
  Permutation (swap x i j) x.
Proof.
  unfold swap.
  destruct (x !! i) as [xi|] eqn:Hi; [|reflexivity].
  destruct (x !! j) as [xj|] eqn:Hj; [|reflexivity].
  revert i j Hi Hj. induction x as [|a x IH]; intros i j Hi Hj; [discriminate|].
  destruct i as [|i], j as [|j]; cbn in Hi, Hj |- *.
  - injection Hi as ->. injection Hj as ->. reflexivity.
  - injection Hi as ->. now apply insert_swapped.
  - injection Hj as ->. now apply insert_swapped.
  - constructor. now apply IH.
Qed.

Lemma shuffle_Permutation (randbelow : nat -> nat) (x : list string) :
  Permutation (shuffle randbelow x) x.
Proof.
  unfold shuffle. generalize (length x - 1)%nat as i. intros i. revert x.
  induction i as [|i IH]; intros x; cbn [shuffle_down]; [reflexivity|].
  rewrite IH. apply swap_Permutation.
Qed.

(** When the main block calls [run_test], the list of servers is what
    [get_dns_servers_from_user] returned and is not empty, and the list of
    domains is not empty and has the domains that [get_domains_for_test]
    returned, each as often as there, in the order of the shuffle. *)
Theorem main_calls_run_test_with_servers_and_domains :
  forall (isspace : ascii -> bool) (int : string -> option Z)
         (csv_path : option string) (file : csv_file)
         (num_domains_to_use_str dns_input : string)
         (randbelow : nat -> nat)
         (dns_servers domains_to_test : list string),
    fst (main isspace int csv_path file num_domains_to_use_str dns_input
           randbelow) = CallRunTest dns_servers domains_to_test ->
    dns_servers = get_dns_servers_from_user isspace dns_input /\
    dns_servers <> [] /\
    domains_to_test <> [] /\
    Permutation domains_to_test
      (fst (get_domains_for_test isspace int csv_path file
              num_domains_to_use_str)).
Proof.
  intros isspace int csv_path file num_domains_to_use_str dns_input randbelow
    dns_servers domains_to_test. unfold main.
  destruct (get_domains_for_test isspace int csv_path file
              num_domains_to_use_str) as [[|d ds] out]; cbn [fst];
    [discriminate|].
  destruct (get_dns_servers_from_user isspace dns_input) as [|server servers];
    cbn [fst]; [discriminate|].
  intros E. injection E as <- <-.
  pose proof (shuffle_Permutation randbelow (d :: ds)) as Hperm.
  split; [reflexivity|]. split; [discriminate|]. split; [|exact Hperm].
  intros Hnil. rewrite Hnil in Hperm.
  apply Permutation_nil in Hperm. discriminate.
Qed.

Lemma main_calls_run_test_with_servers_and_domains_witness :
  fst (main python_isspace (fun _ => Some 3%Z) None FileNotFound "3"
         "1.1.1.1, 8.8.8.8" (fun _ => 0))
  = CallRunTest ["1.1.1.1"; "8.8.8.8"]
      ["youtube.com"; "facebook.com"; "google.com"] /\
  Permutation ["youtube.com"; "facebook.com"; "google.com"]
    (fst (get_domains_for_test python_isspace (fun _ => Some 3%Z) None
            FileNotFound "3")).
Proof.
  split; [reflexivity|].
  apply (main_calls_run_test_with_servers_and_domains python_isspace
           (fun _ => Some 3%Z) None FileNotFound "3" "1.1.1.1, 8.8.8.8"
           (fun _ => 0) ["1.1.1.1"; "8.8.8.8"]).
  reflexivity.
Defined.

(** The main block never gives up for want of domains; it gives up for
    want of servers exactly when the user typed something that has nothing
    but commas and whitespace, and calls [run_test] otherwise. *)
Theorem main_gives_up_only_without_servers :
  forall (isspace : ascii -> bool) (int : string -> option Z)
         (csv_path : option string) (file : csv_file)
         (num_domains_to_use_str dns_input : string)
         (randbelow : nat -> nat),
    let outcome :=
      fst (main isspace int csv_path file num_domains_to_use_str dns_input
             randbelow) in
    outcome <> ExitNoDomains /\
    (outcome = ExitNoServers <->
     dns_input <> "" /\
     Forall (fun c => c = ","%char \/ isspace c = true)
       (characters dns_input)) /\
    (outcome <> ExitNoServers ->
     exists dns_servers domains_to_test,
       outcome = CallRunTest dns_servers domains_to_test).
Proof.
  intros isspace int csv_path file num_domains_to_use_str dns_input randbelow
    outcome. subst outcome. unfold main.
  pose proof (get_domains_for_test_cases isspace int csv_path file
                num_domains_to_use_str) as Hcases.
  pose proof (num_domains_to_use_positive int num_domains_to_use_str) as Hn.
  cbv zeta in Hcases.
  destruct (get_domains_for_test isspace int csv_path file
              num_domains_to_use_str) as [[|d ds] out]; cbn [fst] in *.
  - exfalso. destruct Hcases as [[_ Hload] | [_ Hfb]].
    + now apply load_some_not_nil in Hload.
    + destruct (fallback_list_prefix _ Hn) as (E & Hne & _).
      rewrite E in Hne. congruence.
  - rewrite <- get_dns_servers_nil.
    destruct (get_dns_servers_from_user isspace dns_input) as [|server servers];
      cbn [fst].
    + split; [discriminate|]. split; [tauto|]. congruence.
    + split; [discriminate|]. split; [split; discriminate|].
      intros _. now eexists _, _.
Qed.

Lemma main_gives_up_only_without_servers_witness :
  fst (main python_isspace (fun _ => None) None FileNotFound "" " , "
         (fun _ => 0)) = ExitNoServers.
Proof.
  apply (main_gives_up_only_without_servers python_isspace (fun _ => None)
           None FileNotFound "" " , " (fun _ => 0)).
  split; [discriminate|]. cbn [characters].
  repeat (apply List.Forall_cons;
          [first [left; reflexivity | right; reflexivity]|]).
  apply List.Forall_nil.
Defined.

(** * Further properties of the run *)

Section Run.
Variable limit : nat.
Variable dns_servers : list string.
Variable domains_to_test : list string.
Variable start_processing_time : Q.

(** An event either leaves the variables of the coordinator and the
    records alone, or it is the consumption of a result by the body of the
    loop, which does not raise. *)
Lemma step_effect (s s' : system) (ev : event) :
  invariant limit domains_to_test s ->
  step domains_to_test start_processing_time s ev = Some s' ->
  (vars s' = vars s /\ records s' = records s) \/
  exists (res : result) (now : Q),
    records s' = records s ++ [res] /\
    loop_body domains_to_test start_processing_time (vars s) (next_index s)
      res now = inr (vars s').
Proof.
  intros Hinv Hstep. unfold step in Hstep.
  destruct (raised s); [discriminate|].
  destruct ev as [i now | i now | i outcome now | now].
  - destruct (tasks s !! i) as [[domain status]|]; [|discriminate].
    destruct status; try discriminate.
    destruct (0 <? sem_value s)%nat; injection Hstep as <-; now left.
  - destruct (tasks s !! i) as [[domain status]|]; [|discriminate].
    destruct status; try discriminate.
    destruct (0 <? sem_value s)%nat; [|discriminate].
    injection Hstep as <-; now left.
  - destruct (tasks s !! i) as [[domain status]|]; [|discriminate].
    destruct status; try discriminate.
    injection Hstep as <-; now left.
  - destruct (completed s) as [|res rest] eqn:Hc; [discriminate|].
    injection Hstep as <-. right. exists res, now.
    pose proof (completed_needs_domain _ _ _ _ _ Hinv Hc) as Hne.
    destruct (loop_body_counts domains_to_test start_processing_time (vars s)
                (next_index s) res now Hne) as (st' & Hbody & _).
    unfold consume. rewrite Hbody. now split.
Qed.

Lemma run_preserves (P : system -> Prop) :
  (forall s ev s',
      invariant limit domains_to_test s -> P s ->
      step domains_to_test start_processing_time s ev = Some s' -> P s') ->
  forall events s s',
    invariant limit domains_to_test s -> P s ->
    run domains_to_test start_processing_time s events = Some s' -> P s'.
Proof.
  intros Hstep events. induction events as [|ev events IH]; intros s s' Hinv HP.
  - cbn. intros E. now injection E as <-.
  - cbn [run].
    destruct (step domains_to_test start_processing_time s ev) as [s1|] eqn:E;
      [|discriminate].
    apply IH; [eapply invariant_step | eapply Hstep]; eauto.
Qed.

Lemma successes_snoc (records : list result) (res : result) :
  successes (records ++ [res])
  = successes records ++ (if truthy (r_error res) then [] else [res]).
Proof.
  unfold successes. rewrite List.filter_app. cbn [List.filter].
  now destruct (truthy (r_error res)).
Qed.

Lemma run_timings (events : list event) (s : system) :
  run domains_to_test start_processing_time
      (initial limit dns_servers domains_to_test) events = Some s ->
  timings (vars s) = map r_time (successes (records s)).
Proof.
  apply (run_preserves
           (fun s => timings (vars s) = map r_time (successes (records s))));
    [|apply invariant_initial | reflexivity].
  clear s events. intros s ev s' Hinv HP Hstep.
  destruct (step_effect s s' ev Hinv Hstep)
    as [[-> ->] | (res & now & -> & Hbody)]; [exact HP|].
  assert (Hne : domains_to_test <> []).
  { intros E. unfold loop_body in Hbody. rewrite E in Hbody.
    destruct (truthy (r_error res)), (Qlt_bool 0 (now - start_processing_time));
      cbn in Hbody; try discriminate;
      destruct (pydiv _ _) in Hbody; discriminate. }
  destruct (loop_body_counts domains_to_test start_processing_time (vars s)
              (next_index s) res now Hne) as (st' & Hbody' & _ & Hcount).
  rewrite Hbody in Hbody'. injection Hbody' as <-.
  rewrite successes_snoc.
  destruct (truthy (r_error res)).
  - destruct Hcount as (_ & _ & -> & _). now rewrite app_nil_r.
  - destruct Hcount as (_ & _ & -> & _). rewrite map_app, HP. reflexivity.
Qed.

End Run.

Lemma loop_body_stdout (domains : list string) (start : Q) (st st' : run_state)
    (i : nat) (res : result) (now : Q) :
  loop_body domains start st i res now = inr st' ->
  exists percent qps : Q,
    stdout st'
    = stdout st ++ [ Progress percent (i + 1) (length domains) qps
                       (successful_lookups st') (failed_lookups st') ] /\
    (percent == Qnat (i + 1) / Qnat (length domains) * 100)%Q.
Proof.
  unfold loop_body. intros Hbody.
  destruct (if Qlt_bool 0 (now - start)
            then pydiv (Qnat (i + 1)) (now - start)
            else ret 0%Q) as [e | qps]; [destruct (truthy _); discriminate|].
  unfold pydiv in Hbody.
  destruct (Qeq_bool (Qnat (length domains)) 0);
    [destruct (truthy _); discriminate|].
  destruct (truthy (r_error res)); cbn [bind ret] in Hbody;
    injection Hbody as <-; cbn [stdout successful_lookups failed_lookups];
    eexists _, _; split; reflexivity.
Qed.

Lemma dict_total_set (d : dict) (key : string) :
  dict_total (dict_set d key (dict_get d key 0 + 1)) = dict_total d + 1.
Proof.
  unfold dict_total. induction d as [|[k v] d IH]; [reflexivity|].
  cbn [dict_set dict_get]. destruct (k =? key).
  - cbn [map snd].
    change (list_sum (?a :: ?l)) with (a + list_sum l)%nat. lia.
  - cbn [map snd].
    change (list_sum (?a :: ?l)) with (a + list_sum l)%nat.
    rewrite IH. lia.
Qed.

Lemma dict_total_tally (keys : list string) :
  dict_total (tally keys) = length keys.
Proof.
  induction keys as [|k keys IH] using rev_ind; [reflexivity|].
  rewrite tally_snoc, dict_total_set, IH, length_app. reflexivity.
Qed.

(** The run keeps the lookups that succeeded apart from those that failed:
    [timings] holds the reported times of the successful records, in the
    order of their completion, and nothing else; the two counters count the
    two kinds of records. *)
Theorem timings_are_the_success_latencies :
  forall (limit : nat) (dns_servers domains_to_test : list string)
         (start_processing_time : Q) (events : list event) (s : system),
    run domains_to_test start_processing_time
        (initial limit dns_servers domains_to_test) events = Some s ->
    timings (vars s) = map r_time (successes (records s)) /\
    successful_lookups (vars s) = length (successes (records s)) /\
    failed_lookups (vars s) = length (observed_errors (records s)) /\
    (forall r, In r (successes (records s)) ->
               r_error r = None \/ r_error r = Some "").
Proof.
  intros limit dns_servers domains_to_test start_processing_time events s Hrun.
  pose proof (run_timings _ _ _ _ _ _ Hrun) as Ht.
  destruct (invariant_reachable _ _ _ _ _ _ Hrun).
  split; [exact Ht|]. split; [|split; [assumption|]].
  - rewrite <- inv_timings0, Ht. now rewrite length_map.
  - intros r Hr. unfold successes in Hr.
    apply List.filter_In in Hr as [_ Hr]. apply negb_true_iff in Hr.
    destruct (r_error r) as [k|]; [right | now left].
    cbn in Hr. apply negb_false_iff, String.eqb_eq in Hr. now subst.
Qed.

Lemma timings_are_the_success_latencies_witness :
  exists s : system,
    run ["a.example"; "b.example"] 0
        (initial 1 ["192.168.0.2"] ["a.example"; "b.example"])
        [ Start 0 0; Start 1 0;
          Settle 0 (Raises (Exc (ExcType "LifetimeTimeout" CatchTimeout) "timed out"))
            2;
          Wake 1 2; Consume 2;
          Settle 1 Answer (9 # 4); Consume (5 # 2) ] = Some s /\
    map r_time (records s) = [TIMEOUT; ((9 # 4) - 2)%Q] /\
    timings (vars s) = [((9 # 4) - 2)%Q] /\
    timings (vars s) = map r_time (successes (records s)).
Proof.
  eexists. split; [vm_compute; reflexivity|].
  split; [reflexivity|]. split; [reflexivity|].
  apply (timings_are_the_success_latencies 1 ["192.168.0.2"]
           ["a.example"; "b.example"] 0
           [ Start 0 0; Start 1 0;
             Settle 0 (Raises (Exc (ExcType "LifetimeTimeout" CatchTimeout) "timed out"))
               2;
             Wake 1 2; Consume 2;
             Settle 1 Answer (9 # 4); Consume (5 # 2) ]).
  vm_compute. reflexivity.
Defined.

(** The counts of [error_counts] add up to [failed_lookups]; its keys are
    distinct; every count is positive and is the number of failures with
    this key; and a key that was not observed is not in the dictionary. *)
Theorem error_counts_add_up_to_failed :
  forall (limit : nat) (dns_servers domains_to_test : list string)
         (start_processing_time : Q) (events : list event) (s : system),
    run domains_to_test start_processing_time
        (initial limit dns_servers domains_to_test) events = Some s ->
    let errors := observed_errors (records s) in
    dict_total (error_counts (vars s)) = failed_lookups (vars s) /\
    List.NoDup (map fst (error_counts (vars s))) /\
    (forall key : string,
        dict_get (error_counts (vars s)) key 0 = occurrences key errors) /\
    (forall (key : string) (count : nat),
        In (key, count) (error_counts (vars s)) ->
        (1 <= count)%nat /\ count = occurrences key errors).
Proof.
  intros limit dns_servers domains_to_test start_processing_time events s Hrun
    errors.
  destruct (invariant_reachable _ _ _ _ _ _ Hrun).
  fold errors in inv_failed0, inv_tally0.
  rewrite inv_tally0, inv_failed0.
  split; [apply dict_total_tally|].
  rewrite tally_closed_form. split; [|split].
  - rewrite map_map. cbn [fst]. rewrite map_id. apply first_seen_NoDup.
  - intros key. rewrite dict_get_map.
    destruct (in_dec string_dec key (first_seen errors)) as [_ | Hn];
      [reflexivity|].
    rewrite first_seen_In in Hn. unfold occurrences.
    apply (count_occ_not_In string_dec) in Hn. now rewrite Hn.
  - intros key count Hin. apply in_map_iff in Hin as (k & E & Hk).
    injection E as -> <-. split; [|reflexivity].
    apply (proj1 (first_seen_In _ _)) in Hk. unfold occurrences.
    apply (count_occ_In string_dec) in Hk. unfold errors in *. lia.
Qed.

Lemma error_counts_add_up_to_failed_witness :
  exists s : system,
    run ["a.example"; "b.example"; "c.example"] 0
        (initial 3 ["192.168.0.2"] ["a.example"; "b.example"; "c.example"])
        [ Start 0 0; Start 1 0; Start 2 0;
          Settle 0 (Raises (Exc (ExcType "LifetimeTimeout" CatchTimeout) "timed out"))
            2;
          Settle 1 (Raises (Exc (ExcType "NXDOMAIN" CatchNXDOMAIN) "no such name"))
            2;
          Settle 2 (Raises (Exc (ExcType "Timeout" CatchTimeout) "timed out")) 2;
          Consume 2; Consume 2; Consume 2 ] = Some s /\
    error_counts (vars s) = [("Timeout", 2); ("NXDOMAIN", 1)] /\
    dict_total (error_counts (vars s)) = failed_lookups (vars s).
Proof.
  eexists. split; [vm_compute; reflexivity|].
  split; [reflexivity|].
  apply (error_counts_add_up_to_failed 3 ["192.168.0.2"]
           ["a.example"; "b.example"; "c.example"] 0
           [ Start 0 0; Start 1 0; Start 2 0;
             Settle 0 (Raises (Exc (ExcType "LifetimeTimeout" CatchTimeout) "timed out"))
               2;
             Settle 1 (Raises (Exc (ExcType "NXDOMAIN" CatchNXDOMAIN) "no such name"))
               2;
             Settle 2 (Raises (Exc (ExcType "Timeout" CatchTimeout) "timed out")) 2;
             Consume 2; Consume 2; Consume 2 ]).
  vm_compute. reflexivity.
Defined.

Section Progress_lines.
Variable limit : nat.
Variable dns_servers : list string.
Variable domains_to_test : list string.
Variable start_processing_time : Q.

Lemma run_progress_lines (events : list event) (s : system) :
  run domains_to_test start_processing_time
      (initial limit dns_servers domains_to_test) events = Some s ->
  exists lines : list line,
    stdout (vars s)
    = [ TestingServers dns_servers;
        QueryingDomains (length domains_to_test) QUERY_TYPE;
        ConcurrentRequests CONCURRENT_REQUESTS ] ++ lines /\
    length lines = total_processed (vars s) /\
    forall (k : nat) (l : line),
      nth_error lines k = Some l ->
      progress_line_of (length domains_to_test) (k + 1) l.
Proof.
  apply (run_preserves limit domains_to_test start_processing_time
           (fun s =>
              exists lines : list line,
                stdout (vars s)
                = [ TestingServers dns_servers;
                    QueryingDomains (length domains_to_test) QUERY_TYPE;
                    ConcurrentRequests CONCURRENT_REQUESTS ] ++ lines /\
                length lines = total_processed (vars s) /\
                forall (k : nat) (l : line),
                  nth_error lines k = Some l ->
                  progress_line_of (length domains_to_test) (k + 1) l));
    [|apply invariant_initial|].
  - clear s events. intros s ev s' Hinv (lines & Hout & Hlen & Hlines) Hstep.
    pose proof (invariant_step _ _ _ _ _ _ Hinv Hstep) as Hinv'.
    destruct (step_effect limit domains_to_test start_processing_time
                s s' ev Hinv Hstep)
      as [[Hvars _] | (res & now & _ & Hbody)].
    { rewrite Hvars. now exists lines. }
    destruct (loop_body_stdout _ _ _ _ _ _ _ Hbody)
      as (percent & qps & Hstdout & Hpercent).
    pose proof (inv_processed _ _ _ Hinv) as Hindex.
    pose proof (inv_processed _ _ _ Hinv') as Hindex'.
    pose proof (inv_counts _ _ _ Hinv') as Hcounts'.
    assert (Htotal : total_processed (vars s') = next_index s + 1).
    { unfold loop_body in Hbody.
      destruct (truthy (r_error res));
        destruct (if Qlt_bool 0 (now - start_processing_time) then _ else _);
        cbn [bind] in Hbody; try discriminate;
        destruct (pydiv _ _); cbn [bind ret] in Hbody; try discriminate;
        now injection Hbody as <-. }
    eexists (lines ++ [_]). split; [|split].
    + rewrite Hstdout, Hout. now rewrite <- app_assoc.
    + rewrite length_app. cbn [length]. lia.
    + intros k l Hk.
      destruct (Nat.lt_ge_cases k (length lines)) as [Hlt | Hge].
      * rewrite nth_error_app1 in Hk by exact Hlt. now apply Hlines.
      * rewrite nth_error_app2 in Hk by exact Hge.
        destruct (k - length lines)%nat as [|n] eqn:Ek;
          [|destruct n; discriminate].
        injection Hk as <-. cbn [progress_line_of].
        assert (Ek' : (k + 1 = next_index s + 1)%nat) by lia.
        rewrite Ek'. repeat split; [lia | exact Hpercent].
  - exists []. repeat split. intros [|k] l; discriminate.
Qed.

End Progress_lines.

(** The output of the run starts with the three lines of the banner, and
    after them it has one progress line for each result consumed so far: the
    [k]-th shows [k] of the [D] domains as processed, the percentage
    [k / D * 100], and numbers of successes and errors that add up to
    [k]. *)
Theorem progress_lines_count_up :
  forall (limit : nat) (dns_servers domains_to_test : list string)
         (start_processing_time : Q) (events : list event) (s : system),
    run domains_to_test start_processing_time
        (initial limit dns_servers domains_to_test) events = Some s ->
    exists lines : list line,
      stdout (vars s)
      = [ TestingServers dns_servers;
          QueryingDomains (length domains_to_test) QUERY_TYPE;
          ConcurrentRequests CONCURRENT_REQUESTS ] ++ lines /\
      length lines = total_processed (vars s) /\
      forall (k : nat) (l : line),
        nth_error lines k = Some l ->
        progress_line_of (length domains_to_test) (k + 1) l.
Proof. exact run_progress_lines. Qed.

Lemma progress_lines_count_up_witness :
  exists (s : system) (lines : list line),
    run ["a.example"; "b.example"] 0
        (initial 2 ["192.168.0.2"] ["a.example"; "b.example"])
        [ Start 0 0; Start 1 0; Settle 1 Answer (1 # 10); Consume (1 # 5);
          Settle 0 (Raises (Exc (ExcType "NoAnswer" CatchNoAnswer) "no A record"))
            (3 # 10);
          Consume (2 # 5) ] = Some s /\
    stdout (vars s)
    = [ TestingServers ["192.168.0.2"]; QueryingDomains 2 "A";
        ConcurrentRequests 50;
        Progress (100 # 2) 1 2 (5 # 1) 1 0;
        Progress (200 # 2) 2 2 (10 # 2) 1 1 ] /\
    stdout (vars s)
    = [ TestingServers ["192.168.0.2"]; QueryingDomains 2 QUERY_TYPE;
        ConcurrentRequests CONCURRENT_REQUESTS ] ++ lines /\
    length lines = total_processed (vars s).
Proof.
  eexists.
  destruct (progress_lines_count_up 2 ["192.168.0.2"]
              ["a.example"; "b.example"] 0
              [ Start 0 0; Start 1 0; Settle 1 Answer (1 # 10); Consume (1 # 5);
                Settle 0 (Raises (Exc (ExcType "NoAnswer" CatchNoAnswer) "no A record"))
                  (3 # 10);
                Consume (2 # 5) ] _ ltac:(vm_compute; reflexivity))
    as (lines & Hout & Hlen & _).
  exists lines. split; [reflexivity|]. split; [reflexivity|].
  split; [exact Hout | exact Hlen].
Defined.

(** The semaphore neither loses nor gains a slot: the free slots and the
    queries in flight are always [limit] together, and when the run has
    ended every slot is free again. *)
Theorem slots_are_conserved :
  forall (limit : nat) (dns_servers domains_to_test : list string)
         (start_processing_time : Q) (events : list event) (s : system),
    run domains_to_test start_processing_time
        (initial limit dns_servers domains_to_test) events = Some s ->
    sem_value s + in_flight s = limit /\
    (sem_value s <= limit)%nat /\
    (run_ended s -> in_flight s = 0 /\ sem_value s = limit).
Proof.
  intros limit dns_servers domains_to_test start_processing_time events s Hrun.
  pose proof (inv_slots _ _ _ (invariant_reachable _ _ _ _ _ _ Hrun)) as Hslots.
  split; [exact Hslots|]. split; [lia|].
  intros [Hfin _].
  assert (Hnone : in_flight s = 0).
  { unfold in_flight.
    replace (List.filter is_in_flight (tasks s)) with (@nil task);
      [reflexivity|].
    symmetry. apply filter_nil_iff. intros t Ht.
    rewrite List.Forall_forall in Hfin. specialize (Hfin t Ht).
    unfold is_in_flight. now rewrite Hfin. }
  split; [exact Hnone | lia].
Qed.

Lemma slots_are_conserved_witness :
  exists s : system,
    run ["a.example"; "b.example"] 0
        (initial 1 ["192.168.0.2"] ["a.example"; "b.example"])
        [Start 0 0; Start 1 0; Settle 0 Answer 1] = Some s /\
    sem_value s = 1 /\ in_flight s = 0 /\
    sem_value s + in_flight s = 1.
Proof.
  eexists. split; [vm_compute; reflexivity|].
  split; [reflexivity|]. split; [reflexivity|].
  apply (slots_are_conserved 1 ["192.168.0.2"] ["a.example"; "b.example"] 0
           [Start 0 0; Start 1 0; Settle 0 Answer 1]).
  vm_compute. reflexivity.
Defined.

Lemma run_uses_up_work (domains_to_test : list string)
    (start_processing_time : Q) (events : list event) (s s' : system) :
  run domains_to_test start_processing_time s events = Some s' ->
  (length events + remaining_work s' <= remaining_work s)%nat.
Proof.
  revert s. induction events as [|ev events IH]; intros s; cbn [run].
  - intros E. injection E as <-. cbn. lia.
  - destruct (step domains_to_test start_processing_time s ev) as [s1|] eqn:E;
      [|discriminate].
    intros Hrun. apply IH in Hrun. apply step_decreases in E.
    cbn [length]. lia.
Qed.

Lemma initial_work (limit : nat) (dns_servers domains_to_test : list string) :
  remaining_work (initial limit dns_servers domains_to_test)
  = 4 * length domains_to_test.
Proof.
  unfold remaining_work, initial. cbn [tasks completed length].
  rewrite Nat.add_0_r, map_map.
  induction domains_to_test as [|d ds IH]; [reflexivity|].
  cbn [map length].
  change (list_sum (?a :: ?l)) with (a + list_sum l)%nat.
  rewrite IH. cbn. lia.
Qed.

(** Every schedule is finite: a run over [D] domains has at most [4 * D]
    events (each task starts, is woken at most once, settles and is
    consumed).  And with at least one slot a run at which no event can
    happen has ended: it never hangs before the end. *)
Theorem every_run_terminates :
  forall (limit : nat) (dns_servers domains_to_test : list string)
         (start_processing_time : Q) (events : list event) (s : system),
    run domains_to_test start_processing_time
        (initial limit dns_servers domains_to_test) events = Some s ->
    (length events <= 4 * length domains_to_test)%nat /\
    ((1 <= limit)%nat ->
     (forall ev : event,
         step domains_to_test start_processing_time s ev = None) ->
     run_ended s).
Proof.
  intros limit dns_servers domains_to_test start_processing_time events s Hrun.
  split.
  - pose proof (run_uses_up_work _ _ _ _ _ Hrun) as Hwork.
    rewrite initial_work in Hwork. lia.
  - intros Hlimit Hstuck.
    destruct (progress limit domains_to_test start_processing_time s Hlimit
                (invariant_reachable _ _ _ _ _ _ Hrun))
      as [Hend | (ev & s' & Hstep)]; [exact Hend|].
    rewrite Hstuck in Hstep. discriminate.
Qed.

Lemma every_run_terminates_witness :
  (length [Start 0 0; Start 1 0; Settle 0 Answer 1; Wake 1 1; Consume 1;
           Settle 1 Answer 2; Consume 2] <= 4 * 2)%nat.
Proof.
  apply (every_run_terminates 1 ["192.168.0.2"] ["a.example"; "b.example"] 0
           [Start 0 0; Start 1 0; Settle 0 Answer 1; Wake 1 1; Consume 1;
            Settle 1 Answer 2; Consume 2]
           (match run ["a.example"; "b.example"] 0
                    (initial 1 ["192.168.0.2"] ["a.example"; "b.example"])
                    [Start 0 0; Start 1 0; Settle 0 Answer 1; Wake 1 1;
                     Consume 1; Settle 1 Answer 2; Consume 2] with
            | Some s => s
            | None => initial 1 ["192.168.0.2"] ["a.example"; "b.example"]
            end)).
  vm_compute. reflexivity.
Defined.

